(** * paperless-registration: the generic Object / Validator / Factory /
    Persister layer (models/Base.py), the two concrete models
    (models/User.py, models/SponsoringOrganizations.py) and the CRUD
    controller (controllers/CRUD.py), as a shallow embedding.

    Python dicts are association lists in iteration order with unique keys
    (assignment to a present key keeps its place, assignment to a new key
    appends).  Exceptions are an error type; code that talks to the store
    runs in a state-and-error monad whose state survives a raise. *)

From Stdlib Require Import String Ascii List Bool Arith ZArith Lia.
Import ListNotations.
Open Scope string_scope.
#[local] Set Warnings "-register-all".

(** ** Python values *)

Inductive value : Type :=
| VNone
| VBool (b : bool)
| VInt (z : Z)
| VStr (s : string)
| VList (l : list value)
| VDict (d : list (string * value)).

Definition dict : Type := list (string * value).

(** [bool(v)]: what [if v] and [not v] test. *)
Definition truthy (v : value) : bool :=
  match v with
  | VNone => false
  | VBool b => b
  | VInt z => negb (Z.eqb z 0)
  | VStr s => negb (String.eqb s "")
  | VList l => match l with [] => false | _ => true end
  | VDict d => match d with [] => false | _ => true end
  end.

(** [v != ''] *)
Definition ne_empty_string (v : value) : bool :=
  match v with
  | VStr s => negb (String.eqb s "")
  | _ => true
  end.

(** Structural equality of values; only the in-memory table of the examples
    compares values. *)
Fixpoint value_eqb (a b : value) {struct a} : bool :=
  match a, b with
  | VNone, VNone => true
  | VBool x, VBool y => Bool.eqb x y
  | VInt x, VInt y => Z.eqb x y
  | VStr x, VStr y => String.eqb x y
  | VList x, VList y =>
      (fix go (l1 l2 : list value) {struct l1} : bool :=
         match l1, l2 with
         | [], [] => true
         | u :: l1', w :: l2' => value_eqb u w && go l1' l2'
         | _, _ => false
         end) x y
  | VDict x, VDict y =>
      (fix go (l1 l2 : list (string * value)) {struct l1} : bool :=
         match l1, l2 with
         | [], [] => true
         | (k1, u) :: l1', (k2, w) :: l2' =>
             String.eqb k1 k2 && value_eqb u w && go l1' l2'
         | _, _ => false
         end) x y
  | _, _ => false
  end.

(** ** Dicts *)

Module Dict.

Definition keys (d : dict) : list string := map fst d.

(** [d[k]], [None] where Python raises KeyError. *)
Fixpoint get (d : dict) (k : string) : option value :=
  match d with
  | [] => None
  | (k', v) :: rest => if String.eqb k k' then Some v else get rest k
  end.

(** [k in d] *)
Definition mem (k : string) (d : dict) : bool :=
  match get d k with Some _ => true | None => false end.

(** [d[k] = v] *)
Fixpoint set (d : dict) (k : string) (v : value) : dict :=
  match d with
  | [] => [(k, v)]
  | (k', v') :: rest =>
      if String.eqb k k' then (k', v) :: rest else (k', v') :: set rest k v
  end.

(** [del d[k]] *)
Fixpoint del (d : dict) (k : string) : dict :=
  match d with
  | [] => []
  | (k', v') :: rest =>
      if String.eqb k k' then del rest k else (k', v') :: del rest k
  end.

(** The type invariant of a Python dict. *)
Definition wf (d : dict) : Prop := NoDup (keys d).

End Dict.

(** [k in l] for a list of strings. *)
Definition str_in (k : string) (l : list string) : bool :=
  existsb (String.eqb k) l.

(** ** Exceptions *)

Inductive exn : Type :=
| ClientErrorException (msg : string)
| InvalidObjectException (msg : string)
| MultipleMatchException (msg : string)
| RecordNotFoundException (msg : string)
| Exception (msg : string)
| UnboundLocalError (name : string)
| IndexError
| KeyError (key : string)
| AttributeError (name : string)
| AccessDenied.

Inductive result (A : Type) : Type :=
| Ok (a : A)
| Raise (e : exn).
Arguments Ok {A} a.
Arguments Raise {A} e.

Definition rbind {A B : Type} (r : result A) (k : A -> result B) : result B :=
  match r with
  | Ok a => k a
  | Raise e => Raise e
  end.

Declare Scope py_scope.
Delimit Scope py_scope with py.
Notation "x <- c ;; k" := (rbind c (fun x => k))
  (at level 61, c at next level, right associativity) : py_scope.

(** The double quote of the messages, and ['"{}"'.format(s)]. *)
Definition dq : string := String (ascii_of_nat 34) EmptyString.
Definition quoted (s : string) : string := dq ++ s ++ dq.

Definition FIELD_REQUIRED : string := "required".
Definition FIELD_OPTIONAL : string := "optional".

(** ** Classes

    A class is what its subclass supplies: the attributes its [__init__]
    sets, and the hooks it overrides ([None] for a hook left to the base
    class, which raises). *)

Record ValidatorClass : Type := {
  (** [get_field_requirements], field name to 'required' / 'optional' *)
  get_field_requirements : option dict
}.

Record ObjectClass : Type := {
  cls_name : string;          (** [klass.__name__] *)
  cls_init : dict;            (** the attributes set by [__init__], in order *)
  get_validator : option ValidatorClass
}.

(** An instance: its class and its [__dict__]. *)
Record Obj : Type := {
  klass : ObjectClass;
  __dict__ : dict
}.

(** [klass()] *)
Definition new (c : ObjectClass) : Obj :=
  {| klass := c; __dict__ := cls_init c |}.

(** [setattr(obj, key, v)] on a plain attribute (no model class of the
    repository defines a property, so the assignment never raises
    AttributeError). *)
Definition setattr (obj : Obj) (key : string) (v : value) : Obj :=
  {| klass := klass obj; __dict__ := Dict.set (__dict__ obj) key v |}.

Definition getattr (obj : Obj) (key : string) : option value :=
  Dict.get (__dict__ obj) key.

(** ** Base.Object *)

Module Object.

(** [key if key[0] != '_' else key[1:]]; [key[0]] raises on the empty
    string. *)
Definition unmarked (key : string) : result string :=
  match key with
  | EmptyString => Raise IndexError
  | String c rest => if Ascii.eqb c "_" then Ok rest else Ok key
  end.

Fixpoint to_dict_loop (items : dict) (data : dict) : result dict :=
  match items with
  | [] => Ok data
  | (key, val) :: rest =>
      (k <- unmarked key ;; to_dict_loop rest (Dict.set data k val))%py
  end.

Definition to_dict (self : Obj) : result dict :=
  to_dict_loop (__dict__ self) [].

Fixpoint fields_loop (items : dict) (fields : list string)
  : result (list string) :=
  match items with
  | [] => Ok fields
  | (key, _) :: rest =>
      (k <- unmarked key ;; fields_loop rest (fields ++ [k])%list)%py
  end.

Definition fields (self : Obj) : result (list string) :=
  fields_loop (__dict__ self) [].

(** The loop runs over the attributes the object has when it starts;
    assigning a present attribute keeps the keys as they are. *)
Fixpoint set_from_data_loop (items : dict) (self : Obj) (data : dict)
  : Obj :=
  match items with
  | [] => self
  | (key, _) :: rest =>
      match Dict.get data key with
      | Some v => set_from_data_loop rest (setattr self key v) data
      | None => set_from_data_loop rest self data
      end
  end.

Definition set_from_data (self : Obj) (data : dict) : Obj :=
  set_from_data_loop (__dict__ self) self data.

End Object.

(** ** Base.Validator *)

Module Validator.

Definition missing_required (key : string) : string :=
  "Missing required field " ++ quoted key.

Definition requirements (vc : ValidatorClass) : result dict :=
  match get_field_requirements vc with
  | Some r => Ok r
  | None => Raise (Exception "SYSTEM ERROR: field requirements not defined.")
  end.

(** [value == FIELD_REQUIRED] *)
Definition is_required (v : value) : bool :=
  match v with
  | VStr s => String.eqb s FIELD_REQUIRED
  | _ => false
  end.

Fixpoint required_loop (items : dict) (obj : Obj)
         (valid : bool) (errors : list string)
  : result (bool * list string) :=
  match items with
  | [] => Ok (valid, errors)
  | (key, v) :: rest =>
      if is_required v then
        (d <- Object.to_dict obj ;;
         match Dict.get d key with
         | Some x =>
             if truthy x then required_loop rest obj valid errors
             else required_loop rest obj false
                    (errors ++ [missing_required key])%list
         | None =>
             required_loop rest obj false (errors ++ [missing_required key])%list
         end)%py
      else required_loop rest obj valid errors
  end.

Definition _validate_required_fields (vc : ValidatorClass) (obj : Obj)
  : result (bool * list string) :=
  (reqs <- requirements vc ;; required_loop reqs obj true [])%py.

(** The base hook does nothing; no validator of the repository overrides
    it. *)
Definition prepare_for_validate (obj : Obj) : Obj := obj.

(** The base check; no validator of the repository overrides it. *)
Definition _validate (obj : Obj) : bool * list string := (true, []).

Definition valid (vc : ValidatorClass) (obj : Obj) : result bool :=
  let obj := prepare_for_validate obj in
  (r <- _validate_required_fields vc obj ;;
   let other := _validate obj in
   Ok (fst r && fst other))%py.

Definition get_validation_errors (vc : ValidatorClass) (obj : Obj)
  : result (list string) :=
  let obj := prepare_for_validate obj in
  (r <- _validate_required_fields vc obj ;;
   let other := _validate obj in
   Ok (snd r ++ snd other)%list)%py.

Definition validate (vc : ValidatorClass) (obj : Obj) : result unit :=
  (errors <- get_validation_errors vc obj ;;
   match errors with
   | [] => Ok tt
   | first :: _ => Raise (InvalidObjectException first)
   end)%py.

End Validator.

(** [Object.validate]: [self.get_validator().validate()] *)
Definition obj_validate (self : Obj) : result unit :=
  match get_validator (klass self) with
  | Some vc => Validator.validate vc self
  | None => Raise (Exception "SYSTEM ERROR: validator not defined.")
  end.

(** ** The backing store

    boto3's DynamoDB table resource is outside the repository: it is an
    interface here.  [get_item] answers [Some item] when the response has
    the key 'Item', [table_query] answers [Some items] when the response
    has the key 'Items'. *)

Inductive cond : Type :=
| KeyEq (key : string) (v : value)        (** [Key(key).eq(v)] *)
| And (a b : cond).                       (** [a & b] *)

Class Boto3 : Type := {
  Store : Type;
  get_item : Store -> string -> dict -> option dict;
  put_item : Store -> string -> dict -> Store;
  table_query :
    Store -> string -> value -> option cond -> option (list dict);
  delete_item : Store -> string -> dict -> Store
}.

Inductive call : Type :=
| GetItem (Key : dict)
| PutItem (Item : dict)
| Query (IndexName : value) (KeyConditionExpression : option cond)
| DeleteItem (Key : dict).

(** A persister object: its identity and the table it is bound to. *)
Record PersisterHandle : Type := {
  p_id : nat;
  table : string
}.

Record PersisterClass : Type := {
  _get_table_name : option string
}.

(** One call of the store, by the persister that made it. *)
Record event : Type := {
  ev_persister : PersisterHandle;
  ev_call : call
}.

Section State.

Context {B : Boto3}.

(** What a request can change: the tables, the store calls made so far
    (oldest first), the number of persisters constructed so far, and the
    factory's [self.__persister]. *)
Record State : Type := {
  tables : Store;
  log : list event;
  persisters : nat;
  __persister : option PersisterHandle
}.

Definition M (A : Type) : Type := State -> result A * State.

Definition ret {A : Type} (a : A) : M A := fun st => (Ok a, st).

Definition raise {A : Type} (e : exn) : M A := fun st => (Raise e, st).

Definition lift {A : Type} (r : result A) : M A := fun st => (r, st).

Definition bind {A C : Type} (m : M A) (k : A -> M C) : M C :=
  fun st =>
    match m st with
    | (Ok a, st') => k a st'
    | (Raise e, st') => (Raise e, st')
    end.

Definition record (p : PersisterHandle) (c : call) : M unit :=
  fun st =>
    (Ok tt,
     {| tables := tables st;
        log := (log st ++ [{| ev_persister := p; ev_call := c |}])%list;
        persisters := persisters st;
        __persister := __persister st |}).

Definition with_tables (f : Store -> Store) : M unit :=
  fun st =>
    (Ok tt,
     {| tables := f (tables st);
        log := log st;
        persisters := persisters st;
        __persister := __persister st |}).

End State.

Notation "x <~ c ;; k" := (bind c (fun x => k))
  (at level 61, c at next level, right associativity) : py_scope.

(** ** Base.Persister *)

Module Persister.
Section Persister.

Context {B : Boto3}.

(** [Persister()]: binds the table named by the subclass. *)
Definition init (pc : PersisterClass) : M PersisterHandle :=
  fun st =>
    match _get_table_name pc with
    | None => (Raise (Exception "SYSTEM ERROR: No table name specified."), st)
    | Some name =>
        (Ok {| p_id := persisters st; table := name |},
         {| tables := tables st;
            log := log st;
            persisters := S (persisters st);
            __persister := __persister st |})
    end.

Fixpoint persistable_loop (items : dict) (new_dict : dict) : dict :=
  match items with
  | [] => new_dict
  | (key, val) :: rest =>
      if ne_empty_string val
      then persistable_loop rest (Dict.set new_dict key val)
      else persistable_loop rest new_dict
  end.

Definition get_persistable_object (obj : Obj) : result dict :=
  (d <- Object.to_dict obj ;; Ok (persistable_loop d []))%py.

Definition save (self : PersisterHandle) (obj : Obj) : M unit :=
  (_ <~ lift (obj_validate obj) ;;
   persist_obj <~ lift (get_persistable_object obj) ;;
   _ <~ record self (PutItem persist_obj) ;;
   with_tables (fun t => put_item t (table self) persist_obj))%py.

Definition get (self : PersisterHandle) (key : dict) : M dict :=
  (_ <~ record self (GetItem key) ;;
   fun st =>
     match get_item (tables st) (table self) key with
     | Some item => (Ok item, st)
     | None => (Raise (RecordNotFoundException "Record not found"), st)
     end)%py.

(** The locals of [query]'s loop: [index_name] is bound only when the
    ['__index__'] branch ran, and reading it unbound raises;
    [expression] starts as [None]. *)
Fixpoint query_loop (items : dict)
         (index_name : option value) (expression : option cond)
  : result (option value * option cond) :=
  match items with
  | [] => Ok (index_name, expression)
  | (key, v) :: rest =>
      match index_name with
      | None => Raise (UnboundLocalError "index_name")
      | Some i =>
          let i := if truthy i then i else VStr key in
          let e := match expression with
                   | Some e => And e (KeyEq key v)
                   | None => KeyEq key v
                   end in
          query_loop rest (Some i) (Some e)
      end
  end.

(** The ['__index__'] branch: the local it binds and the caller's dict
    after it. *)
Definition query_index (search_data : dict) : option value * dict :=
  match Dict.get search_data "__index__" with
  | Some i => (Some i, Dict.del search_data "__index__")
  | None => (None, search_data)
  end.

(** [query] answers with its result, the caller's [search_data] as the
    call leaves it, and the state. *)
Definition query (self : PersisterHandle) (search_data : dict)
  : State -> result (list dict) * dict * State :=
  fun st =>
    let '(index_name, search_data) := query_index search_data in
    match query_loop search_data index_name None with
    | Raise e => (Raise e, search_data, st)
    | Ok (None, _) =>
        (Raise (UnboundLocalError "index_name"), search_data, st)
    | Ok (Some i, expression) =>
        let '(_, st) := record self (Query i expression) st in
        match table_query (tables st) (table self) i expression with
        | Some items => (Ok items, search_data, st)
        | None => (Raise (Exception "Error searching"), search_data, st)
        end
    end.

Definition delete (self : PersisterHandle) (obj : Obj) : M unit :=
  match getattr obj "uuid" with
  | None => raise (AttributeError "uuid")
  | Some u =>
      (_ <~ record self (DeleteItem [("uuid", u)]) ;;
       with_tables (fun t => delete_item t (table self) [("uuid", u)]))%py
  end.

End Persister.
End Persister.

(** ** Base.Factory *)

Record FactoryClass : Type := {
  _get_object_class : option ObjectClass;
  get_persister : option PersisterClass;
  (** the hook the two concrete factories define; nothing calls it *)
  _get_persister : option PersisterClass
}.

Module Factory.
Section Factory.

Context {B : Boto3}.

Definition object_class (fc : FactoryClass) : result ObjectClass :=
  match _get_object_class fc with
  | Some c => Ok c
  | None => Raise (Exception "SYSTEM ERROR: class not defined.")
  end.

(** [self.get_persister()] *)
Definition call_get_persister (fc : FactoryClass) : M PersisterHandle :=
  match get_persister fc with
  | Some pc => Persister.init pc
  | None => raise (Exception "SYSTEM ERROR: persister not defined.")
  end.

(** The [_persister] property (a persister object is truthy). *)
Definition _persister (fc : FactoryClass) : M PersisterHandle :=
  fun st =>
    match __persister st with
    | Some p => (Ok p, st)
    | None =>
        match call_get_persister fc st with
        | (Ok p, st') =>
            (Ok p,
             {| tables := tables st';
                log := log st';
                persisters := persisters st';
                __persister := Some p |})
        | (Raise e, st') => (Raise e, st')
        end
    end.

Definition unknown_field (c : ObjectClass) (key : string) : string :=
  "Unknown " ++ quoted (cls_name c) ++ " field " ++ quoted key.

Fixpoint construct_loop (c : ObjectClass) (data items : dict)
         (invalid_field_exceptions : bool) (obj : Obj)
  : result Obj :=
  match items with
  | [] => Ok obj
  | (key, _) :: rest =>
      (fs <- Object.fields obj ;;
       if str_in key fs then
         match Dict.get data key with
         | Some v =>
             construct_loop c data rest invalid_field_exceptions
               (setattr obj key v)
         | None => Raise (KeyError key)
         end
       else if invalid_field_exceptions
            then Raise (Exception (unknown_field c key))
            else construct_loop c data rest invalid_field_exceptions obj)%py
  end.

Definition construct (fc : FactoryClass) (data : dict)
           (invalid_field_exceptions : bool) : result Obj :=
  (c <- object_class fc ;;
   construct_loop c data data invalid_field_exceptions (new c))%py.

Definition load_from_database (fc : FactoryClass) (search_data : dict)
  : M Obj :=
  (p <~ _persister fc ;;
   item_data <~ Persister.get p search_data ;;
   lift (construct fc item_data true))%py.

Definition load_by_uuid (fc : FactoryClass) (uuid : value) : M Obj :=
  load_from_database fc [("uuid", uuid)].

(** Like [Persister.query], it hands back the caller's [search_data]. *)
Definition load_from_database_query (fc : FactoryClass) (search_data : dict)
  : State -> result Obj * dict * State :=
  fun st =>
    match _persister fc st with
    | (Raise e, st) => (Raise e, search_data, st)
    | (Ok p, st) =>
        match Persister.query p search_data st with
        | (Raise e, search_data, st) => (Raise e, search_data, st)
        | (Ok items, search_data, st) =>
            match items with
            | [] =>
                (Raise (RecordNotFoundException "Record not found"),
                 search_data, st)
            | [item] => (construct fc item true, search_data, st)
            | _ :: _ :: _ =>
                (Raise (MultipleMatchException "Multiple matches found"),
                 search_data, st)
            end
        end
    end.

End Factory.
End Factory.

(** ** controllers.Security *)

(** Modelled from the spec: the role constants of controllers/Security.py,
    which is not among the sources.  The three named ones are those the CRUD
    controller accepts; [ROLE_OTHER] stands for any role it does not. *)
Inductive role : Type :=
| ROLE_COUNCIL_ADMIN
| ROLE_UNIT_ADMIN
| ROLE_GUARDIAN
| ROLE_OTHER (name : string).

Definition role_eqb (a b : role) : bool :=
  match a, b with
  | ROLE_COUNCIL_ADMIN, ROLE_COUNCIL_ADMIN => true
  | ROLE_UNIT_ADMIN, ROLE_UNIT_ADMIN => true
  | ROLE_GUARDIAN, ROLE_GUARDIAN => true
  | ROLE_OTHER x, ROLE_OTHER y => String.eqb x y
  | _, _ => false
  end.

(** Modelled from the spec: the test of [require_role] (controllers/Security.py,
    not among the sources): the caller must hold at least one of the
    accepted roles. *)
Definition holds_one_of (accepted held : list role) : bool :=
  existsb (fun r => existsb (role_eqb r) held) accepted.

(** ** controllers.CRUD *)

Record ControllerObj : Type := {
  user : list role;            (** the caller's role set *)
  factory : FactoryClass
}.

Module Controller.
Section Controller.

Context {B : Boto3}.

Definition accepted : list role :=
  [ROLE_COUNCIL_ADMIN; ROLE_UNIT_ADMIN; ROLE_GUARDIAN].

(** Modelled from the spec: the [require_role] decorator
    (controllers/Security.py, not among the sources).  A caller holding
    one of the accepted roles runs the body; any other caller is denied
    before the body runs ([AccessDenied] stands for the denial, whose
    exception class is not in the sources). *)
Definition require_role {A : Type} (roles : list role)
           (self : ControllerObj) (body : M A) : M A :=
  if holds_one_of roles (user self) then body else raise AccessDenied.

Definition get (self : ControllerObj) (uuid : value) : M Obj :=
  require_role accepted self (Factory.load_by_uuid (factory self) uuid).

Definition set (self : ControllerObj) (data : dict) : M Obj :=
  require_role accepted self
    (obj <~ lift (Factory.construct (factory self) data true) ;;
     _ <~ lift (obj_validate obj) ;;
     ret obj)%py.

Definition update (self : ControllerObj) (data : dict) : M Obj :=
  require_role accepted self
    (match Dict.get data "uuid" with
     | Some uuid =>
         if truthy uuid then
           (obj <~ Factory.load_by_uuid (factory self) uuid ;;
            let obj := Object.set_from_data obj data in
            _ <~ lift (obj_validate obj) ;;
            ret obj)%py
         else raise (ClientErrorException "No uuid specified.")
     | None => raise (ClientErrorException "No uuid specified.")
     end).

(** [self.factory.get_persister().query(search_data)] *)
Definition search (self : ControllerObj) (search_data : dict)
  : State -> result (list dict) * dict * State :=
  fun st =>
    if holds_one_of accepted (user self) then
      match Factory.call_get_persister (factory self) st with
      | (Raise e, st) => (Raise e, search_data, st)
      | (Ok p, st) => Persister.query p search_data st
      end
    else (Raise AccessDenied, search_data, st).

End Controller.
End Controller.

(** ** models.User and models.SponsoringOrganizations *)

Module User.

Definition Validator : ValidatorClass :=
  {| get_field_requirements :=
       Some [("uuid", VStr FIELD_REQUIRED);
             ("username", VStr FIELD_REQUIRED);
             ("password", VStr FIELD_REQUIRED);
             ("roles", VStr FIELD_OPTIONAL);
             ("positions", VStr FIELD_OPTIONAL);
             ("guardians", VStr FIELD_OPTIONAL)] |}.

Definition User : ObjectClass :=
  {| cls_name := "User";
     cls_init := [("username", VStr ""); ("password", VStr "");
                  ("guardian_id", VStr ""); ("roles", VDict []);
                  ("positions", VList [])];
     get_validator := Some Validator |}.

Definition Persister : PersisterClass :=
  {| _get_table_name := Some "Users" |}.

Definition Factory : FactoryClass :=
  {| _get_object_class := Some User;
     get_persister := None;
     _get_persister := Some Persister |}.

End User.

Module SponsoringOrganizations.

Definition Validator : ValidatorClass :=
  {| get_field_requirements :=
       Some [("uuid", VStr FIELD_REQUIRED);
             ("subdistrict_id", VStr FIELD_REQUIRED);
             ("name", VStr FIELD_REQUIRED)] |}.

Definition SponsoringOrganizations : ObjectClass :=
  {| cls_name := "SponsoringOrganizations";
     cls_init := [("subdistrict_id", VStr ""); ("name", VStr "")];
     get_validator := Some Validator |}.

Definition Persister : PersisterClass :=
  {| _get_table_name := Some "SponsoringOrganizations" |}.

Definition Factory : FactoryClass :=
  {| _get_object_class := Some SponsoringOrganizations;
     get_persister := None;
     _get_persister := Some Persister |}.

End SponsoringOrganizations.

(** ** An in-memory store and a model with a working persister hook

    The table keeps its items in a list; [get_item] answers the first item
    that agrees with the key, [put_item] replaces the item with the same
    'uuid' or appends, [table_query] answers the items that satisfy the
    condition. *)

Module Memory.

Definition Tables : Type := list (string * list dict).

Fixpoint items_of (t : Tables) (name : string) : list dict :=
  match t with
  | [] => []
  | (n, items) :: rest => if String.eqb name n then items else items_of rest name
  end.

Fixpoint set_items (t : Tables) (name : string) (items : list dict) : Tables :=
  match t with
  | [] => [(name, items)]
  | (n, old) :: rest =>
      if String.eqb name n then (n, items) :: rest
      else (n, old) :: set_items rest name items
  end.

Definition agrees (key item : dict) : bool :=
  forallb (fun kv => match Dict.get item (fst kv) with
                     | Some v => value_eqb v (snd kv)
                     | None => false
                     end) key.

Fixpoint satisfies (e : cond) (item : dict) : bool :=
  match e with
  | KeyEq key v => agrees [(key, v)] item
  | And a b => satisfies a item && satisfies b item
  end.

Definition same_uuid (a b : dict) : bool :=
  match Dict.get a "uuid", Dict.get b "uuid" with
  | Some x, Some y => value_eqb x y
  | _, _ => false
  end.

Fixpoint upsert (items : list dict) (item : dict) : list dict :=
  match items with
  | [] => [item]
  | old :: rest =>
      if same_uuid old item then item :: rest else old :: upsert rest item
  end.

Definition boto3 : Boto3 :=
  {| Store := Tables;
     get_item := fun t name key => find (agrees key) (items_of t name);
     put_item := fun t name item =>
                   set_items t name (upsert (items_of t name) item);
     table_query := fun t name _ e =>
                      match e with
                      | Some e => Some (filter (satisfies e) (items_of t name))
                      | None => None
                      end;
     delete_item := fun t name key =>
                      set_items t name
                        (filter (fun i => negb (agrees key i))
                                (items_of t name)) |}.

Definition state (t : Tables) (calls : list event) (n : nat)
           (cached : option PersisterHandle) : @State boto3 :=
  @Build_State boto3 t calls n cached.

Definition start (t : Tables) : @State boto3 := state t [] 0 None.

End Memory.

(** SponsoringOrganizations as the base classes need it: the 'uuid' attribute
    its validator requires is declared, and the persister hook has the name
    the base class calls. *)
Module Organization.

Definition Organization : ObjectClass :=
  {| cls_name := "Organization";
     cls_init := [("uuid", VStr ""); ("subdistrict_id", VStr "");
                  ("name", VStr "")];
     get_validator := Some SponsoringOrganizations.Validator |}.

Definition Factory : FactoryClass :=
  {| _get_object_class := Some Organization;
     get_persister := Some SponsoringOrganizations.Persister;
     _get_persister := None |}.

Definition troop1 : dict :=
  [("uuid", VStr "spo-1"); ("subdistrict_id", VStr "sd-7");
   ("name", VStr "Troop 1")].

Definition stored : Memory.Tables := [("SponsoringOrganizations", [troop1])].

Definition admin : ControllerObj :=
  {| user := [ROLE_UNIT_ADMIN]; factory := Factory |}.

End Organization.

(** The User factory with the persister hook under the name the base class
    calls. *)
Module Accounts.

Definition Factory : FactoryClass :=
  {| _get_object_class := Some User.User;
     get_persister := Some User.Persister;
     _get_persister := None |}.

Definition bob : dict :=
  [("uuid", VStr "usr-1"); ("username", VStr "bob");
   ("password", VStr "5e88")].

Definition stored : Memory.Tables := [("Users", [bob])].

End Accounts.

(** A class with a marked attribute, and one whose attribute keeps an
    underscore after the mark is taken off. *)
Module Marked.

Definition Marked : ObjectClass :=
  {| cls_name := "Marked";
     cls_init := [("_secret", VStr ""); ("name", VStr "")];
     get_validator := None |}.

Definition Factory : FactoryClass :=
  {| _get_object_class := Some Marked;
     get_persister := None;
     _get_persister := None |}.

End Marked.

Module Dunder.

Definition Dunder : ObjectClass :=
  {| cls_name := "Dunder";
     cls_init := [("__v__", VStr "")];
     get_validator := None |}.

Definition Factory : FactoryClass :=
  {| _get_object_class := Some Dunder;
     get_persister := None;
     _get_persister := None |}.

End Dunder.

(** ** Predicates of the statements *)



(** An attribute name with no leading underscore (and not empty). *)
Definition public_name (k : string) : bool :=
  match k with
  | EmptyString => false
  | String c _ => negb (Ascii.eqb c "_")
  end.

Definition public (d : dict) : Prop :=
  forallb public_name (Dict.keys d) = true.



(** A class whose [__init__] sets public attributes, each once. *)
Definition plain_class (c : ObjectClass) : Prop :=
  public (cls_init c) /\ Dict.wf (cls_init c).

(** [key in d and d[key]] *)
Definition present_truthy (d : dict) (k : string) : bool :=
  match Dict.get d k with
  | Some v => truthy v
  | None => false
  end.

(** A key that the required-field check reports: absent or falsy. *)
Definition missing (d : dict) (k : string) : bool :=
  negb (present_truthy d k).

(** The keys marked 'required', in the order of the requirements. *)
Definition required_keys (reqs : dict) : list string :=
  Dict.keys (filter (fun kv => Validator.is_required (snd kv)) reqs).

(** The first key of [data] that is not an attribute of a new [c]. *)
Definition first_unknown (c : ObjectClass) (data : dict) : option string :=
  find (fun k => negb (str_in k (Dict.keys (cls_init c)))) (Dict.keys data).

(** An object has exactly the attributes its class sets. *)
Definition instance_of (c : ObjectClass) (o : Obj) : Prop :=
  klass o = c /\ Dict.keys (__dict__ o) = Dict.keys (cls_init c).

Definition is_put (e : event) : bool :=
  match ev_call e with PutItem _ => true | _ => false end.

(** Every call of [es] was made by the persister [p]. *)
Definition made_by (p : PersisterHandle) (es : list event) : Prop :=
  Forall (fun e => ev_persister e = p) es.

(** [Key(k1).eq(v1) & Key(k2).eq(v2) & ...] over the items of a dict, joined
    to the left onto [e]. *)
Fixpoint conjunction (e : option cond) (items : dict) : option cond :=
  match items with
  | [] => e
  | (key, v) :: rest =>
      conjunction (Some match e with
                        | Some e => And e (KeyEq key v)
                        | None => KeyEq key v
                        end) rest
  end.

(** The state after one more store call. *)
Definition logged {B : Boto3} (st : State) (p : PersisterHandle) (c : call)
  : State :=
  {| tables := tables st;
     log := (log st ++ [{| ev_persister := p; ev_call := c |}])%list;
     persisters := persisters st;
     __persister := __persister st |}.

(** * Properties *)

(** ** Dicts *)

Section DictFacts.

Lemma get_set_same (d : dict) (k : string) (v : value) :
  Dict.get (Dict.set d k v) k = Some v.
Proof.
  induction d as [|[k' v'] rest IH]; simpl.
  - now rewrite String.eqb_refl.
  - destruct (String.eqb k k') eqn:E; simpl; rewrite E; auto.
Qed.

Lemma get_set_other (d : dict) (k k' : string) (v : value) :
  k <> k' -> Dict.get (Dict.set d k v) k' = Dict.get d k'.
Proof.
  intros Hne. induction d as [|[k0 v0] rest IH]; simpl.
  - destruct (String.eqb k' k) eqn:E; auto.
    apply String.eqb_eq in E. congruence.
  - destruct (String.eqb k k0) eqn:E; simpl.
    + apply String.eqb_eq in E. subst k0.
      destruct (String.eqb k' k) eqn:E'; auto.
      apply String.eqb_eq in E'. congruence.
    + now rewrite IH.
Qed.

Lemma get_none_iff (d : dict) (k : string) :
  Dict.get d k = None <-> ~ In k (Dict.keys d).
Proof.
  induction d as [|[k' v'] rest IH]; simpl.
  - tauto.
  - destruct (String.eqb k k') eqn:E.
    + apply String.eqb_eq in E. subst. split; [discriminate | tauto].
    + apply String.eqb_neq in E. rewrite IH. intuition congruence.
Qed.

Lemma get_some_in (d : dict) (k : string) (v : value) :
  Dict.get d k = Some v -> In k (Dict.keys d).
Proof.
  intros H. destruct (in_dec string_dec k (Dict.keys d)) as [|n]; auto.
  apply get_none_iff in n. congruence.
Qed.

Lemma in_get_some (d : dict) (k : string) :
  In k (Dict.keys d) -> exists v, Dict.get d k = Some v.
Proof.
  intros H. destruct (Dict.get d k) eqn:E; eauto.
  apply get_none_iff in E. contradiction.
Qed.

Lemma str_in_iff (k : string) (l : list string) :
  str_in k l = true <-> In k l.
Proof.
  unfold str_in. rewrite existsb_exists. split.
  - intros [x [Hin Hx]]. apply String.eqb_eq in Hx. now subst.
  - intros H. exists k. split; auto. apply String.eqb_refl.
Qed.

Lemma str_in_false_iff (k : string) (l : list string) :
  str_in k l = false <-> ~ In k l.
Proof.
  rewrite <- str_in_iff. destruct (str_in k l); intuition congruence.
Qed.

Lemma keys_set_present (d : dict) (k : string) (v : value) :
  In k (Dict.keys d) -> Dict.keys (Dict.set d k v) = Dict.keys d.
Proof.
  induction d as [|[k' v'] rest IH]; simpl; [tauto|].
  intros H. destruct (String.eqb k k') eqn:E; simpl; auto.
  apply String.eqb_neq in E. f_equal. apply IH.
  destruct H; [congruence | assumption].
Qed.

Lemma set_fresh (d : dict) (k : string) (v : value) :
  ~ In k (Dict.keys d) -> Dict.set d k v = (d ++ [(k, v)])%list.
Proof.
  induction d as [|[k' v'] rest IH]; simpl; auto.
  intros H. destruct (String.eqb k k') eqn:E.
  - apply String.eqb_eq in E. subst. tauto.
  - f_equal. apply IH. tauto.
Qed.

Lemma wf_set (d : dict) (k : string) (v : value) :
  Dict.wf d -> Dict.wf (Dict.set d k v).
Proof.
  unfold Dict.wf. intros H.
  destruct (in_dec string_dec k (Dict.keys d)) as [i|n].
  - now rewrite keys_set_present.
  - rewrite set_fresh by assumption. unfold Dict.keys in *.
    rewrite map_app. simpl.
    apply NoDup_app; auto.
    + constructor; [simpl; tauto | constructor].
    + intros x Hx [Hx'|[]]. simpl in Hx'. subst. contradiction.
Qed.

Lemma get_del_same (d : dict) (k : string) :
  Dict.get (Dict.del d k) k = None.
Proof.
  induction d as [|[k' v'] rest IH]; simpl; auto.
  destruct (String.eqb k k') eqn:E; simpl; auto. now rewrite E.
Qed.

Lemma get_del_other (d : dict) (k k' : string) :
  k <> k' -> Dict.get (Dict.del d k) k' = Dict.get d k'.
Proof.
  intros Hne. induction d as [|[k0 v0] rest IH]; simpl; auto.
  destruct (String.eqb k k0) eqn:E; simpl.
  - apply String.eqb_eq in E. subst k0.
    destruct (String.eqb k' k) eqn:E'; auto.
    apply String.eqb_eq in E'. congruence.
  - now rewrite IH.
Qed.

(** Two dicts with the same keys in the same order and the same value
    under each key are the same dict. *)
Lemma dict_ext (d1 d2 : dict) :
  Dict.wf d1 ->
  Dict.keys d1 = Dict.keys d2 ->
  (forall k, Dict.get d1 k = Dict.get d2 k) ->
  d1 = d2.
Proof.
  revert d2. induction d1 as [|[k v] rest IH]; intros [|[k2 v2] rest2] Hwf Hk Hg;
    simpl in Hk; try discriminate; auto.
  injection Hk as Hk1 Hk2. subst k2.
  inversion Hwf as [|? ? Hnot Hnd]; subst.
  pose proof (Hg k) as Hgk. simpl in Hgk. rewrite String.eqb_refl in Hgk.
  injection Hgk as ->. f_equal.
  apply IH; auto.
  intros k'. specialize (Hg k'). simpl in Hg.
  destruct (String.eqb k' k) eqn:E; auto.
  apply String.eqb_eq in E. subst k'.
  assert (H1 : Dict.get rest k = None) by now apply get_none_iff.
  assert (H2 : Dict.get rest2 k = None)
    by (apply get_none_iff; unfold Dict.keys in *; now rewrite <- Hk2).
  congruence.
Qed.

Lemma get_filter (f : value -> bool) (d : dict) (k : string) :
  Dict.wf d ->
  Dict.get (filter (fun kv => f (snd kv)) d) k =
  match Dict.get d k with
  | Some v => if f v then Some v else None
  | None => None
  end.
Proof.
  induction d as [|[k' v'] rest IH]; simpl; auto.
  intros Hwf. inversion Hwf as [|? ? Hnot Hnd]; subst.
  destruct (String.eqb k k') eqn:E.
  - apply String.eqb_eq in E. subst k'.
    destruct (f v') eqn:Ef; simpl.
    + now rewrite String.eqb_refl.
    + rewrite IH by assumption.
      assert (H : Dict.get rest k = None) by now apply get_none_iff.
      now rewrite H.
  - destruct (f v'); simpl; [rewrite E|]; now apply IH.
Qed.

Lemma keys_filter_incl (f : string * value -> bool) (d : dict) (k : string) :
  In k (Dict.keys (filter f d)) -> In k (Dict.keys d).
Proof.
  unfold Dict.keys. rewrite !in_map_iff.
  intros [x [Hx Hin]]. apply filter_In in Hin. exists x. tauto.
Qed.

Lemma wf_filter (f : string * value -> bool) (d : dict) :
  Dict.wf d -> Dict.wf (filter f d).
Proof.
  unfold Dict.wf. induction d as [|[k v] rest IH]; simpl; auto.
  intros H. inversion H as [|? ? Hnot Hnd]; subst.
  destruct (f (k, v)); simpl; auto.
  constructor; auto. intros Hin. apply Hnot.
  now apply keys_filter_incl in Hin.
Qed.

Lemma keys_set_in (d : dict) (k x : string) (v : value) :
  In x (Dict.keys (Dict.set d k v)) <-> x = k \/ In x (Dict.keys d).
Proof.
  destruct (in_dec string_dec k (Dict.keys d)) as [i|n].
  - rewrite keys_set_present by assumption.
    split; [tauto | intros [-> | H]; auto].
  - rewrite set_fresh by assumption. unfold Dict.keys.
    rewrite map_app, in_app_iff. simpl. intuition congruence.
Qed.

End DictFacts.

(** ** Lists: the first element that passes a test *)

Section FindFacts.

Context {A : Type} (p : A -> bool).

Lemma find_none_forallb (l : list A) :
  find p l = None <-> forallb (fun x => negb (p x)) l = true.
Proof.
  induction l as [|x l IH]; simpl; [tauto|].
  destruct (p x); simpl; [split; discriminate | exact IH].
Qed.

Lemma find_filter (l : list A) :
  filter p l = match find p l with
               | Some x => x :: tl (filter p l)
               | None => []
               end.
Proof.
  induction l as [|x l IH]; simpl; auto.
  destruct (p x); simpl; auto.
Qed.

Lemma in_find_some (l : list A) (x : A) :
  In x l -> p x = true -> exists y, find p l = Some y.
Proof.
  intros Hin Hp. destruct (find p l) eqn:E; eauto.
  eapply find_none in E; eauto. congruence.
Qed.

End FindFacts.

(** ** Object: [to_dict] and [fields] *)

Section ObjectFacts.

Lemma unmarked_public (k : string) :
  public_name k = true -> Object.unmarked k = Ok k.
Proof.
  destruct k as [|c rest]; simpl; [discriminate|].
  now destruct (Ascii.eqb c "_").
Qed.

Lemma to_dict_loop_wf (items acc d : dict) :
  Dict.wf acc -> Object.to_dict_loop items acc = Ok d -> Dict.wf d.
Proof.
  revert acc. induction items as [|[k v] rest IH]; simpl; intros acc Hwf H.
  - now injection H as <-.
  - destruct (Object.unmarked k) as [k'|e]; simpl in H; [|discriminate].
    eapply IH; [|exact H]. now apply wf_set.
Qed.

(** What [to_dict] answers has each key once. *)
Lemma to_dict_wf (o : Obj) (d : dict) :
  Object.to_dict o = Ok d -> Dict.wf d.
Proof. apply to_dict_loop_wf. constructor. Qed.

Lemma to_dict_loop_public (items acc : dict) :
  public items -> Dict.wf (acc ++ items)%list ->
  Object.to_dict_loop items acc = Ok (acc ++ items)%list.
Proof.
  unfold public, Dict.wf, Dict.keys.
  revert acc. induction items as [|[k v] rest IH]; simpl; intros acc Hp Hwf.
  - now rewrite app_nil_r.
  - apply andb_prop in Hp as [Hk Hrest].
    rewrite (unmarked_public _ Hk). simpl.
    rewrite map_app in Hwf. simpl in Hwf.
    assert (Hfresh : ~ In k (Dict.keys acc)).
    { apply NoDup_remove_2 in Hwf. intros Hin. apply Hwf.
      apply in_or_app. now left. }
    rewrite set_fresh by assumption.
    replace (acc ++ (k, v) :: rest)%list
      with ((acc ++ [(k, v)]) ++ rest)%list
      by (now rewrite <- app_assoc).
    apply IH; auto.
    rewrite map_app, map_app. simpl. now rewrite <- app_assoc.
Qed.

(** On public attributes, each set once, [to_dict] is the [__dict__]. *)
Lemma to_dict_public (o : Obj) :
  public (__dict__ o) -> Dict.wf (__dict__ o) ->
  Object.to_dict o = Ok (__dict__ o).
Proof.
  intros Hp Hwf. unfold Object.to_dict.
  now rewrite (to_dict_loop_public (__dict__ o) []).
Qed.

Lemma fields_loop_public (items : dict) (acc : list string) :
  public items ->
  Object.fields_loop items acc = Ok (acc ++ Dict.keys items)%list.
Proof.
  unfold public.
  revert acc. induction items as [|[k v] rest IH]; simpl; intros acc Hp.
  - now rewrite app_nil_r.
  - apply andb_prop in Hp as [Hk Hrest].
    rewrite (unmarked_public _ Hk). simpl.
    rewrite IH by assumption. now rewrite <- app_assoc.
Qed.

Lemma fields_public (o : Obj) :
  public (__dict__ o) -> Object.fields o = Ok (Dict.keys (__dict__ o)).
Proof. intros Hp. unfold Object.fields. now rewrite fields_loop_public. Qed.

Lemma setattr_keys (o : Obj) (k : string) (v : value) :
  In k (Dict.keys (__dict__ o)) ->
  Dict.keys (__dict__ (setattr o k v)) = Dict.keys (__dict__ o).
Proof. intros H. simpl. now apply keys_set_present. Qed.

Lemma getattr_setattr (o : Obj) (k k' : string) (v : value) :
  getattr (setattr o k v) k' =
  if String.eqb k k' then Some v else getattr o k'.
Proof.
  unfold getattr. simpl. destruct (String.eqb k k') eqn:E.
  - apply String.eqb_eq in E. subst. apply get_set_same.
  - apply String.eqb_neq in E. now apply get_set_other.
Qed.

End ObjectFacts.

(** ** Validator *)

Section ValidatorFacts.

Variables (obj : Obj) (d : dict).
Hypothesis Hd : Object.to_dict obj = Ok d.

Lemma required_loop_spec (reqs : dict) (valid : bool) (errors : list string) :
  Validator.required_loop reqs obj valid errors =
  Ok (valid && forallb (present_truthy d) (required_keys reqs),
      (errors ++ map Validator.missing_required
                     (filter (missing d) (required_keys reqs)))%list).
Proof.
  revert valid errors.
  induction reqs as [|[k v] rest IH]; intros valid errors.
  - simpl. now rewrite andb_true_r, app_nil_r.
  - unfold required_keys in *. simpl.
    destruct (Validator.is_required v) eqn:Ereq; simpl; [|apply IH].
    rewrite Hd. simpl. unfold missing at 1.
    assert (Hpt : present_truthy d k =
                  match Dict.get d k with
                  | Some x => truthy x
                  | None => false
                  end) by reflexivity.
    rewrite Hpt.
    destruct (Dict.get d k) as [x|]; [destruct (truthy x)|]; simpl;
      rewrite IH; f_equal; f_equal;
      try (now rewrite andb_false_r); now rewrite <- app_assoc.
Qed.

Lemma get_validation_errors_spec (vc : ValidatorClass) (reqs : dict) :
  get_field_requirements vc = Some reqs ->
  Validator.get_validation_errors vc obj =
  Ok (map Validator.missing_required
          (filter (missing d) (required_keys reqs))).
Proof.
  intros Hr.
  unfold Validator.get_validation_errors, Validator.prepare_for_validate,
    Validator._validate_required_fields, Validator.requirements.
  rewrite Hr. simpl. rewrite required_loop_spec. simpl.
  now rewrite app_nil_r.
Qed.

End ValidatorFacts.

Lemma validator_validate_spec (vc : ValidatorClass) (reqs : dict)
      (obj : Obj) (d : dict) :
  get_field_requirements vc = Some reqs ->
  Object.to_dict obj = Ok d ->
  Validator.validate vc obj =
  match find (missing d) (required_keys reqs) with
  | Some first =>
      Raise (InvalidObjectException (Validator.missing_required first))
  | None => Ok tt
  end.
Proof.
  intros Hr Hd. unfold Validator.validate.
  rewrite (get_validation_errors_spec obj d Hd vc reqs Hr). simpl.
  rewrite (find_filter (missing d)).
  now destruct (find (missing d) (required_keys reqs)).
Qed.

Lemma is_required_iff (v : value) :
  Validator.is_required v = true <-> v = VStr "required".
Proof.
  destruct v; simpl; try (split; discriminate).
  unfold FIELD_REQUIRED. rewrite String.eqb_eq.
  split; [now intros -> | congruence].
Qed.

Lemma in_required_keys (reqs : dict) (k : string) :
  In k (required_keys reqs) <-> In (k, VStr "required") reqs.
Proof.
  unfold required_keys, Dict.keys. rewrite in_map_iff. split.
  - intros [[k' v] [Hk Hin]]. simpl in Hk. subst k'.
    apply filter_In in Hin as [Hin Hreq]. simpl in Hreq.
    apply is_required_iff in Hreq. now subst v.
  - intros Hin. exists (k, VStr "required"). split; auto.
    apply filter_In. split; auto.
Qed.

Lemma required_keys_app (l1 l2 : dict) :
  required_keys (l1 ++ l2)%list =
  (required_keys l1 ++ required_keys l2)%list.
Proof. unfold required_keys, Dict.keys. now rewrite filter_app, map_app. Qed.

Lemma find_app {A : Type} (p : A -> bool) (l1 l2 : list A) :
  find p (l1 ++ l2)%list = match find p l1 with
                      | Some x => Some x
                      | None => find p l2
                      end.
Proof.
  induction l1 as [|x l1 IH]; simpl; auto. now destruct (p x).
Qed.

Lemma truthy_false_iff (v : value) :
  truthy v = false <->
  In v [VStr ""; VInt 0; VBool false; VNone; VList []; VDict []].
Proof.
  split.
  - destruct v as [|b|z|s|l|d]; simpl; intros H.
    + auto 10.
    + subst b. auto 10.
    + apply negb_false_iff, Z.eqb_eq in H. subst z. auto 10.
    + apply negb_false_iff, String.eqb_eq in H. subst s. auto 10.
    + destruct l; [auto 10 | discriminate].
    + destruct d; [auto 10 | discriminate].
  - simpl. intros H.
    repeat (destruct H as [<- | H]; [reflexivity|]). contradiction.
Qed.

Lemma present_truthy_true (d : dict) (k : string) :
  (exists v, Dict.get d k = Some v /\ truthy v = true) ->
  missing d k = false.
Proof.
  intros [v [Hg Ht]]. unfold missing, present_truthy. now rewrite Hg, Ht.
Qed.

Lemma absent_or_falsy_missing (d : dict) (k : string) :
  Dict.get d k = None \/ (exists v, Dict.get d k = Some v /\ truthy v = false) ->
  missing d k = true.
Proof.
  unfold missing, present_truthy.
  intros [Hg | [v [Hg Ht]]]; rewrite Hg; [|rewrite Ht]; reflexivity.
Qed.

(** C3. The required fields are the keys the requirements map to
    'required'.  An object in whose [to_dict()] every required field is
    present and truthy validates without error.  When some required field
    is absent from [to_dict()] or falsy there, [validate()] raises
    InvalidObject; the message is that of the first such field in the order
    of the requirements, 'Missing required field "k"', and no other message
    is carried.  The falsy values are exactly the empty string, 0, False,
    None and the empty list and dict. *)
Theorem validate_required_fields (vc : ValidatorClass) (reqs : dict)
        (obj : Obj) (d : dict) :
  get_validator (klass obj) = Some vc ->
  get_field_requirements vc = Some reqs ->
  Object.to_dict obj = Ok d ->
  ((forall k, In (k, VStr "required") reqs ->
              exists v, Dict.get d k = Some v /\ truthy v = true) ->
   obj_validate obj = Ok tt /\ Validator.validate vc obj = Ok tt) /\
  (forall pre k post,
     reqs = (pre ++ (k, VStr "required") :: post)%list ->
     (forall k', In (k', VStr "required") pre ->
                 exists v, Dict.get d k' = Some v /\ truthy v = true) ->
     Dict.get d k = None \/
     (exists v, Dict.get d k = Some v /\ truthy v = false) ->
     obj_validate obj =
       Raise (InvalidObjectException
                ("Missing required field " ++
                 String "034" (k ++ String "034" EmptyString))) /\
     Validator.validate vc obj =
       Raise (InvalidObjectException
                ("Missing required field " ++
                 String "034" (k ++ String "034" EmptyString)))) /\
  (forall k, In (k, VStr "required") reqs ->
     Dict.get d k = None \/
     (exists v, Dict.get d k = Some v /\ truthy v = false) ->
     exists msg, obj_validate obj = Raise (InvalidObjectException msg)) /\
  (forall v, truthy v = false <->
             In v [VStr ""; VInt 0; VBool false; VNone; VList []; VDict []]).
Proof.
  intros Hv Hr Hd.
  assert (Hobj : obj_validate obj = Validator.validate vc obj)
    by (unfold obj_validate; now rewrite Hv).
  rewrite Hobj, (validator_validate_spec vc reqs obj d Hr Hd).
  split; [|split; [|split]].
  - intros Hall.
    assert (Hnone : find (missing d) (required_keys reqs) = None).
    { apply find_none_forallb. apply forallb_forall. intros k Hk.
      apply in_required_keys in Hk.
      now rewrite (present_truthy_true d k (Hall k Hk)). }
    now rewrite Hnone.
  - intros pre k post -> Hpre Hk.
    rewrite required_keys_app, find_app.
    assert (Hnone : find (missing d) (required_keys pre) = None).
    { apply find_none_forallb. apply forallb_forall. intros k' Hk'.
      apply in_required_keys in Hk'.
      now rewrite (present_truthy_true d k' (Hpre k' Hk')). }
    rewrite Hnone.
    assert (Hfirst : required_keys ((k, VStr "required") :: post) =
                     k :: required_keys post) by reflexivity.
    rewrite Hfirst. simpl. rewrite (absent_or_falsy_missing d k Hk).
    split; reflexivity.
  - intros k Hin Hk.
    destruct (in_find_some (missing d) (required_keys reqs) k) as [first Hf].
    + now apply in_required_keys.
    + now apply absent_or_falsy_missing.
    + rewrite Hf. eauto.
  - apply truthy_false_iff.
Qed.

Lemma validate_required_fields_witness :
  obj_validate {| klass := Organization.Organization;
                  __dict__ := Organization.troop1 |} = Ok tt /\
  obj_validate {| klass := Organization.Organization;
                  __dict__ := [("uuid", VStr "spo-1");
                               ("subdistrict_id", VStr "");
                               ("name", VStr "")] |} =
  Raise (InvalidObjectException
           ("Missing required field " ++
            String "034" ("subdistrict_id" ++ String "034" EmptyString))).
Proof.
  split.
  - apply (proj1 (validate_required_fields
                    SponsoringOrganizations.Validator
                    [("uuid", VStr "required");
                     ("subdistrict_id", VStr "required");
                     ("name", VStr "required")]
                    {| klass := Organization.Organization;
                       __dict__ := Organization.troop1 |}
                    Organization.troop1 eq_refl eq_refl eq_refl)).
    intros k Hin. simpl in Hin.
    destruct Hin as [H | [H | [H | []]]]; injection H as <-;
      eexists; split; reflexivity.
  - apply (proj1 (proj2 (validate_required_fields
                    SponsoringOrganizations.Validator
                    [("uuid", VStr "required");
                     ("subdistrict_id", VStr "required");
                     ("name", VStr "required")]
                    {| klass := Organization.Organization;
                       __dict__ := [("uuid", VStr "spo-1");
                                    ("subdistrict_id", VStr "");
                                    ("name", VStr "")] |}
                    [("uuid", VStr "spo-1"); ("subdistrict_id", VStr "");
                     ("name", VStr "")]
                    eq_refl eq_refl eq_refl))
             [("uuid", VStr "required")] "subdistrict_id"
             [("name", VStr "required")] eq_refl).
    + intros k' Hin. simpl in Hin. destruct Hin as [H | []].
      injection H as <-. eexists; split; reflexivity.
    + right. eexists; split; reflexivity.
Defined.

(** ** Persister.save *)

Section SaveFacts.

Context {B : Boto3}.

Lemma ne_empty_string_false (v : value) :
  ne_empty_string v = false <-> v = VStr "".
Proof.
  destruct v; simpl; try (split; discriminate).
  destruct s; simpl; split; try discriminate; auto.
Qed.

Lemma persistable_loop_filter (items acc : dict) :
  NoDup (Dict.keys acc ++ Dict.keys items) ->
  Persister.persistable_loop items acc =
  (acc ++ filter (fun kv => ne_empty_string (snd kv)) items)%list.
Proof.
  revert acc. induction items as [|[k v] rest IH]; simpl; intros acc Hnd.
  - now rewrite app_nil_r.
  - destruct (ne_empty_string v).
    + assert (Hfresh : ~ In k (Dict.keys acc)).
      { apply NoDup_remove_2 in Hnd. intros Hin. apply Hnd.
        apply in_or_app. now left. }
      rewrite set_fresh by assumption. rewrite IH.
      * now rewrite <- app_assoc.
      * unfold Dict.keys in *. rewrite map_app. simpl.
        now rewrite <- app_assoc.
    + apply IH. now apply NoDup_remove_1 in Hnd.
Qed.

Lemma get_persistable_object_spec (obj : Obj) (d : dict) :
  Object.to_dict obj = Ok d ->
  Persister.get_persistable_object obj =
  Ok (filter (fun kv => ne_empty_string (snd kv)) d).
Proof.
  intros Hd. unfold Persister.get_persistable_object. rewrite Hd. simpl.
  rewrite persistable_loop_filter; auto.
  simpl. exact (to_dict_wf obj d Hd).
Qed.

(** C6. [save(obj)] validates first: when validation raises, the error
    propagates and nothing is written.  Otherwise the one item it puts is
    [obj.to_dict()] without the keys whose value is the empty string: no
    key of the item holds the empty string, and every other key of
    [to_dict()] is in the item with its value unchanged. *)
Theorem save_strips_empty_strings
        (self : PersisterHandle) (obj : Obj) (st : State) :
  (forall e, obj_validate obj = Raise e ->
             Persister.save self obj st = (Raise e, st)) /\
  (forall d, obj_validate obj = Ok tt -> Object.to_dict obj = Ok d ->
     let item := filter (fun kv => ne_empty_string (snd kv)) d in
     Persister.save self obj st =
       (Ok tt,
        {| tables := put_item (tables st) (table self) item;
           log := (log st ++ [{| ev_persister := self;
                                 ev_call := PutItem item |}])%list;
           persisters := persisters st;
           __persister := __persister st |}) /\
     (forall k, Dict.get item k <> Some (VStr "")) /\
     (forall k v, Dict.get d k = Some v -> v <> VStr "" ->
                  Dict.get item k = Some v) /\
     (forall k v, Dict.get item k = Some v -> Dict.get d k = Some v)).
Proof.
  split.
  - intros e He. unfold Persister.save, bind, lift. now rewrite He.
  - intros d Hv Hd item.
    pose proof (to_dict_wf obj d Hd) as Hwf.
    split; [|split; [|split]].
    + unfold Persister.save, bind, lift, record, with_tables.
      rewrite Hv, (get_persistable_object_spec obj d Hd). reflexivity.
    + intros k. unfold item. rewrite get_filter by assumption.
      destruct (Dict.get d k) as [v|]; [|discriminate].
      destruct (ne_empty_string v) eqn:E; [|discriminate].
      intros H. injection H as ->. discriminate.
    + intros k v Hk Hne. unfold item. rewrite get_filter by assumption.
      rewrite Hk. destruct (ne_empty_string v) eqn:E; auto.
      apply ne_empty_string_false in E. contradiction.
    + intros k v. unfold item. rewrite get_filter by assumption.
      destruct (Dict.get d k) as [x|]; [|discriminate].
      destruct (ne_empty_string x); [auto | discriminate].
Qed.

End SaveFacts.

(** ** Factory.construct *)

Section ConstructFacts.

Variables (c : ObjectClass) (data : dict).

Lemma public_setattr (obj : Obj) (k : string) (v : value) :
  In k (Dict.keys (__dict__ obj)) ->
  public (__dict__ obj) -> public (__dict__ (setattr obj k v)).
Proof. unfold public. intros Hin Hp. now rewrite setattr_keys. Qed.

(** When every key of [items] that the flag makes matter is an attribute,
    the loop ends with an object that has the same attributes, those named
    in [items] taken from [data]. *)
Lemma construct_loop_ok (b : bool) (items : dict) :
  forall obj : Obj,
    public (__dict__ obj) ->
    (forall k, In k (Dict.keys items) -> In k (Dict.keys data)) ->
    (b = true ->
     forall k, In k (Dict.keys items) -> In k (Dict.keys (__dict__ obj))) ->
    exists obj',
      Factory.construct_loop c data items b obj = Ok obj' /\
      klass obj' = klass obj /\
      Dict.keys (__dict__ obj') = Dict.keys (__dict__ obj) /\
      forall k,
        getattr obj' k =
        if str_in k (Dict.keys items) && str_in k (Dict.keys (__dict__ obj))
        then Dict.get data k else getattr obj k.
Proof.
  induction items as [|[key x] rest IH]; intros obj Hp Hin Hb.
  - exists obj. simpl. repeat split; auto.
  - simpl. rewrite (fields_public obj Hp). simpl.
    destruct (str_in key (Dict.keys (__dict__ obj))) eqn:E.
    + apply str_in_iff in E.
      destruct (in_get_some data key) as [v Hv];
        [apply Hin; simpl; now left|].
      rewrite Hv.
      destruct (IH (setattr obj key v)) as [obj' [Hrun [Hk [Hkeys Hget]]]].
      * now apply public_setattr.
      * intros k Hk. apply Hin. simpl. now right.
      * intros Hbt k Hk. rewrite setattr_keys by assumption.
        apply (Hb Hbt). simpl. now right.
      * exists obj'. rewrite setattr_keys in * by assumption.
        repeat split; auto.
        intros k. rewrite Hget, getattr_setattr.
        destruct (String.eqb k key) eqn:Ek; simpl.
        -- apply String.eqb_eq in Ek. subst k.
           rewrite String.eqb_refl.
           apply str_in_iff in E. rewrite E, andb_true_r.
           now destruct (str_in key (Dict.keys rest)).
        -- rewrite String.eqb_sym, Ek. reflexivity.
    + destruct b.
      * apply str_in_false_iff in E. exfalso. apply E.
        apply Hb; auto. simpl. now left.
      * destruct (IH obj) as [obj' [Hrun [Hk [Hkeys Hget]]]]; auto.
        -- intros k Hk. apply Hin. simpl. now right.
        -- discriminate.
        -- exists obj'. repeat split; auto.
           intros k. rewrite Hget.
           destruct (String.eqb k key) eqn:Ek; simpl; auto.
           apply String.eqb_eq in Ek. subst k.
           now rewrite E, !andb_false_r.
Qed.

(** With the flag set, the loop stops at the first key that is not an
    attribute. *)
Lemma construct_loop_unknown (items : dict) :
  forall (obj : Obj) (k0 : string),
    public (__dict__ obj) ->
    (forall k, In k (Dict.keys items) -> In k (Dict.keys data)) ->
    find (fun k => negb (str_in k (Dict.keys (__dict__ obj))))
         (Dict.keys items) = Some k0 ->
    Factory.construct_loop c data items true obj =
    Raise (Exception (Factory.unknown_field c k0)).
Proof.
  induction items as [|[key x] rest IH]; intros obj k0 Hp Hin Hfind.
  - discriminate.
  - simpl in *. rewrite (fields_public obj Hp). simpl.
    destruct (str_in key (Dict.keys (__dict__ obj))) eqn:E; simpl in Hfind.
    + apply str_in_iff in E.
      destruct (in_get_some data key) as [v Hv]; [apply Hin; now left|].
      rewrite Hv. apply IH.
      * now apply public_setattr.
      * intros k Hk. apply Hin. now right.
      * now rewrite setattr_keys.
    + now injection Hfind as ->.
Qed.

End ConstructFacts.

Lemma first_unknown_none (c : ObjectClass) (data : dict) :
  first_unknown c data = None ->
  forall k, In k (Dict.keys data) -> In k (Dict.keys (cls_init c)).
Proof.
  unfold first_unknown. intros H k Hk.
  apply (find_none _ _ H) in Hk. apply negb_false_iff in Hk.
  now apply str_in_iff.
Qed.

(** [construct] on data whose keys pass: an instance of the class, each
    attribute named in [data] set from it, the others as [__init__] left
    them. *)
Lemma construct_ok (fc : FactoryClass) (c : ObjectClass) (data : dict)
      (b : bool) :
  _get_object_class fc = Some c ->
  public (cls_init c) ->
  (b = true -> first_unknown c data = None) ->
  exists obj,
    Factory.construct fc data b = Ok obj /\
    instance_of c obj /\
    forall k, In k (Dict.keys (cls_init c)) ->
      getattr obj k = match Dict.get data k with
                      | Some v => Some v
                      | None => Dict.get (cls_init c) k
                      end.
Proof.
  intros Hc Hp Hb.
  destruct (construct_loop_ok c data b data (new c)) as [obj [Hrun [Hk [Hkeys Hget]]]];
    auto.
  { intros Hbt. simpl. apply first_unknown_none. auto. }
  exists obj. unfold Factory.construct, Factory.object_class.
  rewrite Hc. simpl. repeat split; auto.
  intros k Hin. rewrite Hget. simpl in *.
  apply str_in_iff in Hin. rewrite Hin, andb_true_r.
  destruct (str_in k (Dict.keys data)) eqn:E.
  - apply str_in_iff in E. destruct (in_get_some data k E) as [v ->]. reflexivity.
  - apply str_in_false_iff in E. apply get_none_iff in E. now rewrite E.
Qed.

Lemma construct_unknown (fc : FactoryClass) (c : ObjectClass) (data : dict)
      (k0 : string) :
  _get_object_class fc = Some c ->
  public (cls_init c) ->
  first_unknown c data = Some k0 ->
  Factory.construct fc data true =
  Raise (Exception (Factory.unknown_field c k0)).
Proof.
  intros Hc Hp Hf. unfold Factory.construct, Factory.object_class.
  rewrite Hc. simpl. apply construct_loop_unknown; auto.
Qed.

(** ** Factory.construct on marked attributes *)

Section MarkedFacts.










Variables (c : ObjectClass) (data : dict) (F : list string).




End MarkedFacts.






(** C7, as the code has it.  For an object that has exactly the attributes
    its class sets, when those attribute names are public (no leading
    underscore, each set once): [construct] applied to the object's
    [to_dict()] answers, whatever the flag, an object of the same class with
    the same value in every field, the object itself. *)
Theorem to_dict_construct_roundtrip (fc : FactoryClass) (c : ObjectClass)
        (o : Obj) (b : bool) :
  _get_object_class fc = Some c ->
  plain_class c ->
  instance_of c o ->
  exists d,
    Object.to_dict o = Ok d /\
    Factory.construct fc d b = Ok o.
Proof.
  intros Hc [Hp Hwf] [Hk Hkeys].
  assert (Hpo : public (__dict__ o)) by (unfold public; now rewrite Hkeys).
  assert (Hwfo : Dict.wf (__dict__ o)) by (unfold Dict.wf; now rewrite Hkeys).
  exists (__dict__ o). split; [now apply to_dict_public|].
  destruct (construct_ok fc c (__dict__ o) b Hc Hp) as [obj [Hrun [[Hko Hkeyso] Hget]]].
  { intros _. unfold first_unknown. apply find_none_forallb.
    apply forallb_forall. intros k Hin. rewrite negb_involutive.
    apply str_in_iff. now rewrite <- Hkeys. }
  rewrite Hrun. f_equal.
  assert (Hd : __dict__ obj = __dict__ o).
  { apply dict_ext.
    - unfold Dict.wf. now rewrite Hkeyso.
    - congruence.
    - intros k. destruct (in_dec string_dec k (Dict.keys (cls_init c))) as [i|n].
      + specialize (Hget k i). unfold getattr in Hget. rewrite Hget.
        rewrite <- Hkeys in i. destruct (in_get_some _ _ i) as [v ->]. reflexivity.
      + transitivity (@None value).
        * apply get_none_iff. now rewrite Hkeyso.
        * symmetry. apply get_none_iff. now rewrite Hkeys. }
  destruct obj as [ko do], o as [k' d']. simpl in *. congruence.
Qed.

Lemma to_dict_construct_roundtrip_witness :
  exists d,
    Object.to_dict {| klass := Organization.Organization;
                      __dict__ := Organization.troop1 |} = Ok d /\
    Factory.construct Organization.Factory d true =
      Ok {| klass := Organization.Organization;
            __dict__ := Organization.troop1 |}.
Proof.
  apply (to_dict_construct_roundtrip Organization.Factory
           Organization.Organization _ true eq_refl).
  - split; [reflexivity|].
    unfold Dict.wf. simpl.
    repeat (constructor; [simpl; intuition discriminate|]). constructor.
  - split; reflexivity.
Defined.

(** C7 fails as stated on a marked attribute: a Marked object with
    [_secret] set has exactly the attributes of its class; [to_dict()]
    names the field 'secret', and [construct] of that dict answers an
    object in which [_secret] is back at the value [__init__] gives it and
    a new attribute [secret] holds the value, for either flag. *)
Lemma roundtrip_loses_marked_attribute :
  Object.to_dict {| klass := Marked.Marked;
                    __dict__ := [("_secret", VStr "s3"); ("name", VStr "n")] |}
  = Ok [("secret", VStr "s3"); ("name", VStr "n")] /\
  Factory.construct Marked.Factory
    [("secret", VStr "s3"); ("name", VStr "n")] true
  = Ok {| klass := Marked.Marked;
          __dict__ := [("_secret", VStr ""); ("name", VStr "n");
                       ("secret", VStr "s3")] |} /\
  Factory.construct Marked.Factory
    [("secret", VStr "s3"); ("name", VStr "n")] false
  = Ok {| klass := Marked.Marked;
          __dict__ := [("_secret", VStr ""); ("name", VStr "n");
                       ("secret", VStr "s3")] |}.
Proof. repeat split; reflexivity. Qed.

(** ** Persister.query *)

Section QueryFacts.

Context {B : Boto3}.

Lemma query_loop_bound (i : value) (items : dict) (e : option cond) :
  truthy i = true ->
  Persister.query_loop items (Some i) e = Ok (Some i, conjunction e items).
Proof.
  intros Hi. revert e. induction items as [|[k v] rest IH]; intros e; simpl.
  - reflexivity.
  - rewrite Hi. apply IH.
Qed.

Lemma query_loop_keeps_binding (items : dict) :
  forall (i : value) (e : option cond),
  exists j e', Persister.query_loop items (Some i) e = Ok (Some j, e').
Proof.
  induction items as [|[k v] rest IH]; intros i e; simpl; eauto.
Qed.

(** X12. Without ['__index__'] the local [index_name] is never bound:
    whatever else [search_data] holds, the call raises UnboundLocalError
    before it reaches the table, and leaves the dict and the state as they
    were. *)
Lemma query_no_index (self : PersisterHandle) (search_data : dict)
      (st : State) :
  Dict.get search_data "__index__" = None ->
  Persister.query self search_data st =
  (Raise (UnboundLocalError "index_name"), search_data, st).
Proof.
  intros H. unfold Persister.query, Persister.query_index. rewrite H.
  destruct search_data as [|[k v] rest]; reflexivity.
Qed.

(** X10. With a truthy ['__index__'], the key leaves the dict, its value
    selects the index, and the condition is the conjunction, in the dict's
    order, of the equalities of the remaining pairs.  The call makes one
    query; it answers the items of the response, or raises
    Exception('Error searching') when the response has none. *)
Lemma query_with_index (self : PersisterHandle) (search_data : dict)
      (st : State) (i : value) :
  Dict.get search_data "__index__" = Some i ->
  truthy i = true ->
  let rest := Dict.del search_data "__index__" in
  let e := conjunction None rest in
  Persister.query self search_data st =
  (match table_query (tables st) (table self) i e with
   | Some items => Ok items
   | None => Raise (Exception "Error searching")
   end, rest, logged st self (Query i e)).
Proof.
  intros H Hi rest e. unfold Persister.query, Persister.query_index.
  rewrite H, (query_loop_bound i _ None Hi). simpl.
  fold rest e. now destruct (table_query (tables st) (table self) i e).
Qed.

(** What a query can do to the state: at most one more call in the log,
    made by the persister that runs it. *)
Lemma query_state (self : PersisterHandle) (search_data : dict)
      (st : State) :
  let st' := snd (Persister.query self search_data st) in
  st' = st \/ exists i e, st' = logged st self (Query i e).
Proof.
  unfold Persister.query, Persister.query_index.
  destruct (Dict.get search_data "__index__") as [i|].
  - destruct (query_loop_keeps_binding (Dict.del search_data "__index__")
                i None) as [j [e' ->]].
    simpl. right. exists j, e'.
    now destruct (table_query (tables st) (table self) j e').
  - left. destruct search_data as [|[k v] rest]; reflexivity.
Qed.

(** C2, at the input [{"name": "X"}]: with no ['__index__'] key the call
    does not query index "name"; it raises UnboundLocalError for
    [index_name], leaves the store untouched and makes no store call. *)
Theorem query_without_index_raises (self : PersisterHandle) (st : State) :
  Persister.query self [("name", VStr "X")] st =
  (Raise (UnboundLocalError "index_name"), [("name", VStr "X")], st).
Proof. reflexivity. Qed.

(** C10. When [search_data] has the key ['__index__'], the dict the
    caller passed is, after the call, the same dict with that key deleted,
    whether the call answers or raises: ['__index__'] is no longer in it
    and every other key is as it was. *)
Theorem query_deletes_index_key (self : PersisterHandle)
        (search_data : dict) (st : State) :
  Dict.mem "__index__" search_data = true ->
  let after := snd (fst (Persister.query self search_data st)) in
  after = Dict.del search_data "__index__" /\
  Dict.mem "__index__" after = false /\
  (forall k, k <> "__index__" -> Dict.get after k = Dict.get search_data k).
Proof.
  intros Hmem after. unfold Dict.mem in *.
  assert (Hafter : after = Dict.del search_data "__index__").
  { unfold after, Persister.query, Persister.query_index.
    destruct (Dict.get search_data "__index__") as [i|]; [|discriminate].
    destruct (query_loop_keeps_binding (Dict.del search_data "__index__")
                i None) as [j [e' ->]].
    simpl. now destruct (table_query (tables st) (table self) j e'). }
  rewrite Hafter. repeat split.
  - now rewrite get_del_same.
  - intros k Hk. apply get_del_other. congruence.
Qed.

End QueryFacts.

Lemma query_deletes_index_key_witness :
  snd (fst (Persister.query (B := Memory.boto3)
              {| p_id := 0; table := "Users" |}
              [("__index__", VStr "by_name"); ("username", VStr "bob")]
              (Memory.start Accounts.stored)))
  = [("username", VStr "bob")].
Proof.
  apply (proj1 (query_deletes_index_key (B := Memory.boto3)
                  {| p_id := 0; table := "Users" |}
                  [("__index__", VStr "by_name"); ("username", VStr "bob")]
                  (Memory.start Accounts.stored) eq_refl)).
Defined.

(** ** Factory: the cached persister and the loads *)

Section FactoryFacts.

Context {B : Boto3}.

Lemma _persister_cached (fc : FactoryClass) (st : State)
      (p : PersisterHandle) :
  __persister st = Some p -> Factory._persister fc st = (Ok p, st).
Proof. intros H. unfold Factory._persister. now rewrite H. Qed.

Lemma _persister_first (fc : FactoryClass) (st : State)
      (pc : PersisterClass) (name : string) :
  __persister st = None ->
  get_persister fc = Some pc ->
  _get_table_name pc = Some name ->
  Factory._persister fc st =
  (Ok {| p_id := persisters st; table := name |},
   {| tables := tables st;
      log := log st;
      persisters := S (persisters st);
      __persister := Some {| p_id := persisters st; table := name |} |}).
Proof.
  intros H Hpc Hname.
  unfold Factory._persister, Factory.call_get_persister, Persister.init.
  now rewrite H, Hpc, Hname.
Qed.

(** The property leaves the tables and the log alone, and a handle it
    answers is the one in the cache afterwards. *)
Lemma _persister_state (fc : FactoryClass) (st : State) :
  tables (snd (Factory._persister fc st)) = tables st /\
  log (snd (Factory._persister fc st)) = log st /\
  forall p, fst (Factory._persister fc st) = Ok p ->
            __persister (snd (Factory._persister fc st)) = Some p.
Proof.
  unfold Factory._persister, Factory.call_get_persister, Persister.init,
    raise.
  destruct (__persister st) as [p|] eqn:E; simpl.
  - repeat split; auto. intros q Hq. congruence.
  - destruct (get_persister fc) as [pc|]; simpl.
    + destruct (_get_table_name pc) as [name|]; simpl;
        repeat split; auto; intros q Hq; congruence.
    + repeat split; auto. discriminate.
Qed.

Lemma load_from_database_spec (fc : FactoryClass) (key : dict) (st : State) :
  Factory.load_from_database fc key st =
  match Factory._persister fc st with
  | (Raise e, st1) => (Raise e, st1)
  | (Ok p, st1) =>
      (match get_item (tables st1) (table p) key with
       | Some item => Factory.construct fc item true
       | None => Raise (RecordNotFoundException "Record not found")
       end, logged st1 p (GetItem key))
  end.
Proof.
  unfold Factory.load_from_database, bind.
  destruct (Factory._persister fc st) as [[p|e] st1]; auto.
  unfold Persister.get, bind, record, lift. simpl.
  fold (logged st1 p (GetItem key)).
  now destruct (get_item (tables st1) (table p) key) as [item|].
Qed.

(** A load that answers an object got it by constructing it from the item
    stored under the key; it made one [get_item] call and no other. *)
Lemma load_by_uuid_ok (fc : FactoryClass) (uuid : value) (st st1 : State)
      (obj : Obj) :
  Factory.load_by_uuid fc uuid st = (Ok obj, st1) ->
  exists p item,
    get_item (tables st) (table p) [("uuid", uuid)] = Some item /\
    Factory.construct fc item true = Ok obj /\
    tables st1 = tables st /\
    log st1 = (log st ++ [{| ev_persister := p;
                             ev_call := GetItem [("uuid", uuid)] |}])%list.
Proof.
  unfold Factory.load_by_uuid. rewrite load_from_database_spec.
  destruct (_persister_state fc st) as [Ht [Hl _]].
  destruct (Factory._persister fc st) as [[p|e] st']; simpl in *;
    [|discriminate].
  intros H. injection H as Hr <-. exists p.
  rewrite Ht in Hr.
  destruct (get_item (tables st) (table p) [("uuid", uuid)]) as [item|];
    [|discriminate].
  exists item. simpl. rewrite Ht, Hl. auto.
Qed.

(** No load writes: the tables are as before, and no call it adds to the
    log is a put. *)
Lemma load_from_database_reads (fc : FactoryClass) (key : dict) (st : State) :
  let st1 := snd (Factory.load_from_database fc key st) in
  tables st1 = tables st /\
  exists es, log st1 = (log st ++ es)%list /\ existsb is_put es = false.
Proof.
  simpl. rewrite load_from_database_spec.
  destruct (_persister_state fc st) as [Ht [Hl _]].
  destruct (Factory._persister fc st) as [[p|e] st']; simpl in *.
  - split; auto.
    exists [{| ev_persister := p; ev_call := GetItem key |}].
    rewrite Hl. auto.
  - split; auto. exists []. now rewrite app_nil_r.
Qed.


End FactoryFacts.

(** ** Factory.load_from_database_query *)




(** ** Object.set_from_data and Controller.update *)

Section UpdateFacts.

Context {B : Boto3}.

Lemma set_from_data_loop_spec (data : dict) (items : dict) :
  forall obj : Obj,
    (forall k, In k (Dict.keys items) -> In k (Dict.keys (__dict__ obj))) ->
    let obj' := Object.set_from_data_loop items obj data in
    klass obj' = klass obj /\
    Dict.keys (__dict__ obj') = Dict.keys (__dict__ obj) /\
    forall k,
      getattr obj' k =
      if str_in k (Dict.keys items)
      then match Dict.get data k with
           | Some v => Some v
           | None => getattr obj k
           end
      else getattr obj k.
Proof.
  induction items as [|[key x] rest IH]; intros obj Hin; simpl.
  - auto.
  - assert (Hkey : In key (Dict.keys (__dict__ obj)))
      by (apply Hin; simpl; now left).
    destruct (Dict.get data key) as [v|] eqn:Ev.
    + destruct (IH (setattr obj key v)) as [Hk [Hkeys Hget]].
      { intros k Hk. rewrite setattr_keys by assumption.
        apply Hin. simpl. now right. }
      rewrite setattr_keys in Hkeys by assumption.
      repeat split; auto.
      intros k. rewrite Hget, getattr_setattr.
      destruct (String.eqb k key) eqn:Ek; simpl.
      * apply String.eqb_eq in Ek. subst k.
        rewrite Ev, String.eqb_refl.
        now destruct (str_in key (Dict.keys rest)).
      * rewrite String.eqb_sym, Ek. reflexivity.
    + destruct (IH obj) as [Hk [Hkeys Hget]].
      { intros k Hk. apply Hin. simpl. now right. }
      repeat split; auto.
      intros k. rewrite Hget.
      destruct (String.eqb k key) eqn:Ek; simpl; auto.
      apply String.eqb_eq in Ek. subst k. rewrite Ev.
      now destruct (str_in key (Dict.keys rest)).
Qed.

(** [set_from_data] overwrites the attributes whose key is in [data] and
    no other; it adds none. *)
Lemma set_from_data_spec (obj : Obj) (data : dict) :
  let obj' := Object.set_from_data obj data in
  klass obj' = klass obj /\
  Dict.keys (__dict__ obj') = Dict.keys (__dict__ obj) /\
  (forall k, In k (Dict.keys (__dict__ obj)) ->
     getattr obj' k = match Dict.get data k with
                      | Some v => Some v
                      | None => getattr obj k
                      end) /\
  (forall k, ~ In k (Dict.keys (__dict__ obj)) -> getattr obj' k = None).
Proof.
  destruct (set_from_data_loop_spec data (__dict__ obj) obj)
    as [Hk [Hkeys Hget]]; auto.
  simpl. unfold Object.set_from_data. repeat split; auto.
  - intros k Hin. rewrite Hget.
    apply str_in_iff in Hin. now rewrite Hin.
  - intros k Hnot. unfold getattr. apply get_none_iff. now rewrite Hkeys.
Qed.

(** C5. For an authorized caller: [update(data)] raises ClientError
    ('No uuid specified.') when [data] has no 'uuid' or a falsy one, and
    the store is not touched.  With a truthy 'uuid' it loads the record
    stored under it (an error of the load propagates), and the loaded
    object is changed by [set_from_data]: same class, same attributes,
    each attribute whose key is in [data] overwritten with [data]'s value,
    every other attribute as loaded, and keys of [data] that are not
    attributes not set.  That object is validated and returned. *)
Theorem update_overwrites_given_fields
        (self : ControllerObj) (data : dict) (st : State) :
  holds_one_of Controller.accepted (user self) = true ->
  (Dict.get data "uuid" = None \/
   (exists v, Dict.get data "uuid" = Some v /\ truthy v = false) ->
   Controller.update self data st =
     (Raise (ClientErrorException "No uuid specified."), st)) /\
  (forall uuid, Dict.get data "uuid" = Some uuid -> truthy uuid = true ->
     (forall e st1,
        Factory.load_by_uuid (factory self) uuid st = (Raise e, st1) ->
        Controller.update self data st = (Raise e, st1)) /\
     (forall obj st1,
        Factory.load_by_uuid (factory self) uuid st = (Ok obj, st1) ->
        let obj' := Object.set_from_data obj data in
        (exists p item,
           get_item (tables st) (table p) [("uuid", uuid)] = Some item /\
           Factory.construct (factory self) item true = Ok obj) /\
        Controller.update self data st =
          (match obj_validate obj' with
           | Ok _ => Ok obj'
           | Raise e => Raise e
           end, st1) /\
        klass obj' = klass obj /\
        Dict.keys (__dict__ obj') = Dict.keys (__dict__ obj) /\
        (forall k, In k (Dict.keys (__dict__ obj)) ->
           getattr obj' k = match Dict.get data k with
                            | Some v => Some v
                            | None => getattr obj k
                            end) /\
        (forall k, ~ In k (Dict.keys (__dict__ obj)) ->
           getattr obj' k = None))).
Proof.
  intros Hauth. unfold Controller.update, Controller.require_role.
  rewrite Hauth. split.
  - intros [Hnone | [v [Hsome Hfalsy]]].
    + now rewrite Hnone.
    + now rewrite Hsome, Hfalsy.
  - intros uuid Hsome Htruthy. rewrite Hsome, Htruthy. split.
    + intros e st1 Hload. unfold bind. now rewrite Hload.
    + intros obj st1 Hload.
      destruct (set_from_data_spec obj data) as [Hk [Hkeys [Hget Hnot]]].
      destruct (load_by_uuid_ok _ _ _ _ _ Hload)
        as [p [item [Hitem [Hcons _]]]].
      split; [now exists p, item|].
      split; [|now repeat split].
      unfold bind, lift, ret. rewrite Hload.
      now destruct (obj_validate (Object.set_from_data obj data)).
Qed.

End UpdateFacts.

Lemma update_overwrites_given_fields_witness :
  Controller.update (B := Memory.boto3) Organization.admin []
    (Memory.start Organization.stored) =
  (Raise (ClientErrorException "No uuid specified."),
   Memory.start Organization.stored)
  /\
  Controller.update (B := Memory.boto3) Organization.admin
    [("uuid", VStr "spo-1"); ("name", VStr "Troop 2"); ("colour", VStr "red")]
    (Memory.start Organization.stored) =
  (Ok {| klass := Organization.Organization;
         __dict__ := [("uuid", VStr "spo-1"); ("subdistrict_id", VStr "sd-7");
                      ("name", VStr "Troop 2")] |},
   Memory.state Organization.stored
     [{| ev_persister := {| p_id := 0; table := "SponsoringOrganizations" |};
         ev_call := GetItem [("uuid", VStr "spo-1")] |}]
     1 (Some {| p_id := 0; table := "SponsoringOrganizations" |})).
Proof.
  split.
  - apply (proj1 (update_overwrites_given_fields (B := Memory.boto3)
                    Organization.admin [] (Memory.start Organization.stored)
                    eq_refl)).
    left. reflexivity.
  - destruct (proj2 (update_overwrites_given_fields (B := Memory.boto3)
                       Organization.admin
                       [("uuid", VStr "spo-1"); ("name", VStr "Troop 2");
                        ("colour", VStr "red")]
                       (Memory.start Organization.stored) eq_refl)
                (VStr "spo-1") eq_refl eq_refl) as [_ Hok].
    destruct (Hok {| klass := Organization.Organization;
                     __dict__ := Organization.troop1 |}
                  (Memory.state Organization.stored
                     [{| ev_persister :=
                           {| p_id := 0; table := "SponsoringOrganizations" |};
                         ev_call := GetItem [("uuid", VStr "spo-1")] |}]
                     1 (Some {| p_id := 0;
                                table := "SponsoringOrganizations" |}))
                  eq_refl) as [_ [Hupd _]].
    exact Hupd.
Defined.

(** ** The cached persister *)

Section CacheFacts.

Context {B : Boto3}.

Lemma query_calls (self : PersisterHandle) (search_data : dict)
      (st : State) :
  let st' := snd (Persister.query self search_data st) in
  __persister st' = __persister st /\
  persisters st' = persisters st /\
  tables st' = tables st /\
  exists es, log st' = (log st ++ es)%list /\ made_by self es /\
             existsb is_put es = false.
Proof.
  destruct (query_state self search_data st) as [-> | [i [e ->]]]; simpl.
  - repeat split; auto. exists []. rewrite app_nil_r.
    repeat split; auto. constructor.
  - repeat split; auto. eexists. repeat split; eauto.
    repeat constructor.
Qed.

(** C9, as the code has it.  The first access through the factory's
    [_persister] property, with the cache empty, constructs a persister by
    the [get_persister] hook and caches it.  From then on the property
    answers the cached handle without constructing anything, and the
    factory's loads ([load_from_database], [load_from_database_query]) make
    their store calls through it and leave it cached.  [Controller.search]
    does not go through the property: each call constructs a fresh
    persister by the hook, queries through that one, and neither reads nor
    fills the cache. *)
Theorem persister_cached_for_factory_loads (fc : FactoryClass) (st : State) :
  (forall pc name,
     __persister st = None ->
     get_persister fc = Some pc ->
     _get_table_name pc = Some name ->
     let p := {| p_id := persisters st; table := name |} in
     fst (Factory._persister fc st) = Ok p /\
     __persister (snd (Factory._persister fc st)) = Some p /\
     persisters (snd (Factory._persister fc st)) = S (persisters st)) /\
  (forall p,
     __persister st = Some p ->
     Factory._persister fc st = (Ok p, st) /\
     (forall key,
        let st' := snd (Factory.load_from_database fc key st) in
        __persister st' = Some p /\ persisters st' = persisters st /\
        exists es, log st' = (log st ++ es)%list /\ made_by p es) /\
     (forall search_data,
        let st' := snd (Factory.load_from_database_query fc search_data st) in
        __persister st' = Some p /\ persisters st' = persisters st /\
        exists es, log st' = (log st ++ es)%list /\ made_by p es)) /\
  (forall self search_data pc name,
     factory self = fc ->
     holds_one_of Controller.accepted (user self) = true ->
     get_persister fc = Some pc ->
     _get_table_name pc = Some name ->
     let st' := snd (Controller.search self search_data st) in
     let fresh := {| p_id := persisters st; table := name |} in
     __persister st' = __persister st /\
     persisters st' = S (persisters st) /\
     exists es, log st' = (log st ++ es)%list /\ made_by fresh es).
Proof.
  split; [|split].
  - intros pc name Hnone Hpc Hname.
    now rewrite (_persister_first fc st pc name Hnone Hpc Hname).
  - intros p Hp. split; [now apply _persister_cached|]. split.
    + intros key. simpl. rewrite load_from_database_spec.
      rewrite (_persister_cached fc st p Hp). simpl.
      repeat split; auto. eexists. split; eauto. repeat constructor.
    + intros search_data. simpl. unfold Factory.load_from_database_query.
      rewrite (_persister_cached fc st p Hp).
      destruct (query_calls p search_data st)
        as [Hc [Hn [_ [es [Hlog [Hby _]]]]]].
      destruct (Persister.query p search_data st) as [[[items|e] after] st2];
        simpl in *.
      * assert (Hsame :
          snd (match items with
               | [] => (Raise (RecordNotFoundException "Record not found"),
                        after, st2)
               | [item] => (Factory.construct fc item true, after, st2)
               | _ :: _ :: _ =>
                   (Raise (MultipleMatchException "Multiple matches found"),
                    after, st2)
               end) = st2)
          by now destruct items as [|i1 [|i2 rest]].
        rewrite Hsame. rewrite Hc, Hn. repeat split; auto. now exists es.
      * rewrite Hc, Hn. repeat split; auto. now exists es.
  - intros self search_data pc name Hf Hauth Hpc Hname. simpl.
    unfold Controller.search, Factory.call_get_persister, Persister.init.
    rewrite Hauth, Hf, Hpc, Hname.
    match goal with
    | |- context [Persister.query ?q search_data ?s] =>
        destruct (query_calls q search_data s)
          as [Hc [Hn [_ [es [Hlog [Hby _]]]]]]
    end.
    simpl in *. rewrite Hc, Hn. repeat split; auto. now exists es.
Qed.

(** X13. [set] makes no store call at all, whatever it answers: the
    tables, the log and the cached persister are as before. *)
Lemma set_state_unchanged (self : ControllerObj) (data : dict) (st : State) :
  snd (Controller.set self data st) = st.
Proof.
  unfold Controller.set, Controller.require_role, bind, lift, ret, raise.
  destruct (holds_one_of Controller.accepted (user self)); auto.
  destruct (Factory.construct (factory self) data true) as [obj|e]; auto.
  now destruct (obj_validate obj).
Qed.

(** X14. [update] never writes: the tables are as before and no call it
    makes is a put. *)
Lemma update_never_puts (self : ControllerObj) (data : dict) (st : State) :
  let st' := snd (Controller.update self data st) in
  tables st' = tables st /\
  exists es, log st' = (log st ++ es)%list /\ existsb is_put es = false.
Proof.
  assert (Hsame : tables st = tables st /\
                  exists es, log st = (log st ++ es)%list /\
                             existsb is_put es = false)
    by (split; auto; exists []; now rewrite app_nil_r).
  unfold Controller.update, Controller.require_role, raise.
  destruct (holds_one_of Controller.accepted (user self)); auto.
  destruct (Dict.get data "uuid") as [uuid|]; auto.
  destruct (truthy uuid); auto.
  unfold bind, lift, ret, Factory.load_by_uuid.
  pose proof (load_from_database_reads (factory self) [("uuid", uuid)] st)
    as Hload. simpl in Hload.
  destruct (Factory.load_from_database (factory self) [("uuid", uuid)] st)
    as [[obj|e] st1]; simpl in *; auto.
  now destruct (obj_validate (Object.set_from_data obj data)).
Qed.

End CacheFacts.

(** C9 fails as stated: after a load has cached persister 0,
    [Controller.search] constructs persister 1 and queries through it; the
    cache still holds persister 0. *)
Lemma search_bypasses_cached_persister :
  snd (Factory.load_by_uuid (B := Memory.boto3) Organization.Factory
         (VStr "spo-1") (Memory.start Organization.stored))
  = Memory.state Organization.stored
      [{| ev_persister := {| p_id := 0; table := "SponsoringOrganizations" |};
          ev_call := GetItem [("uuid", VStr "spo-1")] |}]
      1 (Some {| p_id := 0; table := "SponsoringOrganizations" |})
  /\
  snd (Controller.search (B := Memory.boto3) Organization.admin
         [("__index__", VStr "by_name"); ("name", VStr "Troop 1")]
         (Memory.state Organization.stored
            [{| ev_persister :=
                  {| p_id := 0; table := "SponsoringOrganizations" |};
                ev_call := GetItem [("uuid", VStr "spo-1")] |}]
            1 (Some {| p_id := 0; table := "SponsoringOrganizations" |})))
  = Memory.state Organization.stored
      [{| ev_persister := {| p_id := 0; table := "SponsoringOrganizations" |};
          ev_call := GetItem [("uuid", VStr "spo-1")] |};
       {| ev_persister := {| p_id := 1; table := "SponsoringOrganizations" |};
          ev_call := Query (VStr "by_name")
                       (Some (KeyEq "name" (VStr "Troop 1"))) |}]
      2 (Some {| p_id := 0; table := "SponsoringOrganizations" |}).
Proof. split; reflexivity. Qed.

(** C1, at a stored organization.  [update] with a new name answers the
    changed object after one [get_item] call and no [put_item]: the table
    still holds the old name.  [set] answers its object without any store
    call. *)
Theorem update_and_set_do_not_write :
  Controller.update (B := Memory.boto3) Organization.admin
    [("uuid", VStr "spo-1"); ("name", VStr "Troop 2")]
    (Memory.start Organization.stored)
  = (Ok {| klass := Organization.Organization;
           __dict__ := [("uuid", VStr "spo-1"); ("subdistrict_id", VStr "sd-7");
                        ("name", VStr "Troop 2")] |},
     Memory.state Organization.stored
       [{| ev_persister := {| p_id := 0; table := "SponsoringOrganizations" |};
           ev_call := GetItem [("uuid", VStr "spo-1")] |}]
       1 (Some {| p_id := 0; table := "SponsoringOrganizations" |}))
  /\
  Controller.set (B := Memory.boto3) Organization.admin
    [("uuid", VStr "spo-1"); ("subdistrict_id", VStr "sd-9");
     ("name", VStr "Troop 2")]
    (Memory.start Organization.stored)
  = (Ok {| klass := Organization.Organization;
           __dict__ := [("uuid", VStr "spo-1"); ("subdistrict_id", VStr "sd-9");
                        ("name", VStr "Troop 2")] |},
     Memory.start Organization.stored).
Proof. split; reflexivity. Qed.

(** ** The two concrete factories

    Both define the hook as [_get_persister]; the base class calls
    [get_persister], which they leave to the base class, so every access to
    the store through them raises. *)

Section ConcreteFactories.

Context {B : Boto3}.

Lemma user_factory_has_no_persister (st : State) :
  __persister st = None ->
  Factory._persister User.Factory st =
  (Raise (Exception "SYSTEM ERROR: persister not defined."), st).
Proof. intros H. unfold Factory._persister. now rewrite H. Qed.

Lemma sponsoring_organizations_factory_has_no_persister (st : State) :
  __persister st = None ->
  Factory._persister SponsoringOrganizations.Factory st =
  (Raise (Exception "SYSTEM ERROR: persister not defined."), st).
Proof. intros H. unfold Factory._persister. now rewrite H. Qed.

(** Neither concrete class declares the 'uuid' its validator requires, so
    a new object of either never validates. *)
Lemma new_user_does_not_validate :
  obj_validate (new User.User) =
  Raise (InvalidObjectException (Validator.missing_required "uuid")).
Proof. reflexivity. Qed.

End ConcreteFactories.

(** * Further properties of the code *)

(** ** Validator: [valid] and [get_validation_errors] *)

Lemma valid_spec (vc : ValidatorClass) (reqs : dict) (obj : Obj) (d : dict) :
  get_field_requirements vc = Some reqs ->
  Object.to_dict obj = Ok d ->
  Validator.valid vc obj = Ok (forallb (present_truthy d) (required_keys reqs)).
Proof.
  intros Hr Hd.
  unfold Validator.valid, Validator.prepare_for_validate,
    Validator._validate_required_fields, Validator.requirements.
  rewrite Hr. simpl. rewrite (required_loop_spec obj d Hd). simpl.
  now rewrite andb_true_r.
Qed.

Lemma find_missing_none (d : dict) (l : list string) :
  find (missing d) l = None <-> forallb (present_truthy d) l = true.
Proof.
  rewrite find_none_forallb, !forallb_forall.
  split; intros H k Hk; specialize (H k Hk); unfold missing in *.
  - now rewrite negb_involutive in H.
  - now rewrite negb_involutive.
Qed.

(** X1. [valid()] and [validate()] agree: [valid()] answers True exactly
    when [validate()] passes, and False exactly when [validate()] raises
    InvalidObject. *)
Theorem valid_agrees_with_validate (vc : ValidatorClass) (reqs : dict)
        (obj : Obj) (d : dict) :
  get_field_requirements vc = Some reqs ->
  Object.to_dict obj = Ok d ->
  (Validator.valid vc obj = Ok true <-> Validator.validate vc obj = Ok tt) /\
  (Validator.valid vc obj = Ok false <->
   exists msg, Validator.validate vc obj = Raise (InvalidObjectException msg)).
Proof.
  intros Hr Hd.
  rewrite (valid_spec vc reqs obj d Hr Hd),
    (validator_validate_spec vc reqs obj d Hr Hd).
  pose proof (find_missing_none d (required_keys reqs)) as Hfind.
  destruct (find (missing d) (required_keys reqs)) as [first|];
    destruct (forallb (present_truthy d) (required_keys reqs)).
  - destruct Hfind as [_ H]. discriminate (H eq_refl).
  - split; split; try discriminate; eauto.
  - split; split; auto; try discriminate. intros [msg H]. discriminate.
  - destruct Hfind as [H _]. discriminate (H eq_refl).
Qed.

Lemma valid_agrees_with_validate_witness :
  Validator.valid SponsoringOrganizations.Validator
    (new SponsoringOrganizations.SponsoringOrganizations) = Ok false.
Proof.
  apply (proj2 (valid_agrees_with_validate
                  SponsoringOrganizations.Validator
                  [("uuid", VStr FIELD_REQUIRED);
                   ("subdistrict_id", VStr FIELD_REQUIRED);
                   ("name", VStr FIELD_REQUIRED)]
                  (new SponsoringOrganizations.SponsoringOrganizations)
                  [("subdistrict_id", VStr ""); ("name", VStr "")]
                  eq_refl eq_refl)).
  eexists. reflexivity.
Defined.

(** X2. [get_validation_errors()] does not stop at the first problem: it
    answers one 'Missing required field' message for every required field
    that is absent or falsy, in the order of the requirements, and no message
    for any other field. *)
Theorem get_validation_errors_lists_every_missing_field
        (vc : ValidatorClass) (reqs : dict) (obj : Obj) (d : dict) :
  get_field_requirements vc = Some reqs ->
  Object.to_dict obj = Ok d ->
  exists errors,
    Validator.get_validation_errors vc obj = Ok errors /\
    errors = map Validator.missing_required
                 (filter (missing d) (required_keys reqs)) /\
    (forall k, In k (required_keys reqs) -> present_truthy d k = false ->
               In (Validator.missing_required k) errors) /\
    (forall msg, In msg errors ->
       exists k, msg = Validator.missing_required k /\
                 In k (required_keys reqs) /\ present_truthy d k = false).
Proof.
  intros Hr Hd. eexists. split; [|split; [reflexivity|split]].
  - apply (get_validation_errors_spec obj d Hd vc reqs Hr).
  - intros k Hin Hk. apply in_map. apply filter_In. split; auto.
    unfold missing. now rewrite Hk.
  - intros msg Hin. apply in_map_iff in Hin as [k [<- Hk]].
    apply filter_In in Hk as [Hk Hm]. exists k. repeat split; auto.
    unfold missing in Hm. now apply negb_true_iff in Hm.
Qed.

Lemma get_validation_errors_lists_every_missing_field_witness :
  Validator.get_validation_errors User.Validator (new User.User) =
  Ok [Validator.missing_required "uuid";
      Validator.missing_required "username";
      Validator.missing_required "password"].
Proof.
  destruct (get_validation_errors_lists_every_missing_field
              User.Validator
              [("uuid", VStr FIELD_REQUIRED);
               ("username", VStr FIELD_REQUIRED);
               ("password", VStr FIELD_REQUIRED);
               ("roles", VStr FIELD_OPTIONAL);
               ("positions", VStr FIELD_OPTIONAL);
               ("guardians", VStr FIELD_OPTIONAL)]
              (new User.User)
              [("username", VStr ""); ("password", VStr "");
               ("guardian_id", VStr ""); ("roles", VDict []);
               ("positions", VList [])]
              eq_refl eq_refl) as [errors [Hrun [Heq _]]].
  rewrite Hrun, Heq. reflexivity.
Defined.

(** ** Object: [fields] against [to_dict], [set_from_data] *)

Lemma fields_loop_to_dict_loop (items : dict) :
  forall (acc : list string) (data : dict),
    (forall k, In k acc <-> In k (Dict.keys data)) ->
    match Object.fields_loop items acc, Object.to_dict_loop items data with
    | Ok fs, Ok d => forall k, In k fs <-> In k (Dict.keys d)
    | Raise e, Raise e' => e = e'
    | _, _ => False
    end.
Proof.
  induction items as [|[key v] rest IH]; intros acc data Hacc; simpl.
  - exact Hacc.
  - destruct (Object.unmarked key) as [k|e]; simpl; [|reflexivity].
    apply IH. intros x. rewrite in_app_iff, keys_set_in, Hacc.
    simpl. intuition congruence.
Qed.

(** X3. [fields()] and [to_dict()] name the same fields: whenever
    [fields()] answers, so does [to_dict()], and a name is in the list
    exactly when it is a key of the dict; when [fields()] raises (an
    attribute with the empty name), [to_dict()] raises the same error. *)
Theorem fields_are_the_keys_of_to_dict (o : Obj) :
  (forall fs, Object.fields o = Ok fs ->
     exists d, Object.to_dict o = Ok d /\
               forall k, In k fs <-> In k (Dict.keys d)) /\
  (forall e, Object.fields o = Raise e -> Object.to_dict o = Raise e).
Proof.
  pose proof (fields_loop_to_dict_loop (__dict__ o) [] []) as H.
  unfold Object.fields, Object.to_dict.
  destruct (Object.fields_loop (__dict__ o) []) as [fs|e];
    destruct (Object.to_dict_loop (__dict__ o) []) as [d|e'];
    try (exfalso; apply H; simpl; tauto).
  - split; [|discriminate]. intros fs' Hfs. injection Hfs as <-.
    exists d. split; auto. apply H. simpl. tauto.
  - split; [discriminate|]. intros e0 He. injection He as <-.
    f_equal. symmetry. apply H. simpl. tauto.
Qed.

Lemma set_from_data_loop_empty (items : dict) (o : Obj) :
  Object.set_from_data_loop items o [] = o.
Proof. induction items as [|[k v] rest IH]; simpl; auto. Qed.

Lemma obj_ext (o1 o2 : Obj) :
  klass o1 = klass o2 -> __dict__ o1 = __dict__ o2 -> o1 = o2.
Proof. destruct o1, o2. simpl. congruence. Qed.

(** X4. [set_from_data] is idempotent, and with an empty dict it changes
    nothing: applying the same data a second time leaves the object as the
    first application made it. *)
Theorem set_from_data_idempotent (o : Obj) (data : dict) :
  Dict.wf (__dict__ o) ->
  Object.set_from_data (Object.set_from_data o data) data =
    Object.set_from_data o data /\
  Object.set_from_data o [] = o.
Proof.
  intros Hwf. split; [|apply set_from_data_loop_empty].
  destruct (@set_from_data_spec o data) as [Hk [Hkeys [Hget Hnot]]].
  destruct (@set_from_data_spec (Object.set_from_data o data) data)
    as [Hk2 [Hkeys2 [Hget2 Hnot2]]].
  apply obj_ext; [congruence|].
  apply dict_ext.
  - unfold Dict.wf. now rewrite Hkeys2, Hkeys.
  - exact Hkeys2.
  - intros k.
    destruct (in_dec string_dec k
                (Dict.keys (__dict__ (Object.set_from_data o data))))
      as [i|n].
    + specialize (Hget2 k i). rewrite Hkeys in i. specialize (Hget k i).
      unfold getattr in *. rewrite Hget2, Hget.
      now destruct (Dict.get data k).
    + specialize (Hnot2 k n). unfold getattr in Hnot2. rewrite Hnot2.
      symmetry. now apply get_none_iff.
Qed.

Lemma set_from_data_idempotent_witness :
  Object.set_from_data
    (Object.set_from_data
       {| klass := Organization.Organization;
          __dict__ := Organization.troop1 |}
       [("name", VStr "Troop 2"); ("colour", VStr "red")])
    [("name", VStr "Troop 2"); ("colour", VStr "red")]
  = Object.set_from_data
      {| klass := Organization.Organization;
         __dict__ := Organization.troop1 |}
      [("name", VStr "Troop 2"); ("colour", VStr "red")].
Proof.
  apply (proj1 (set_from_data_idempotent
                  {| klass := Organization.Organization;
                     __dict__ := Organization.troop1 |}
                  [("name", VStr "Troop 2"); ("colour", VStr "red")]
                  ltac:(unfold Dict.wf; simpl;
                        repeat (constructor; [simpl; intuition discriminate|]);
                        constructor))).
Defined.

(** ** Factory.construct: when it answers *)

(** X5. For a class with public attributes: with the flag at its default,
    [construct(data)] answers an object exactly when every key of [data] is
    an attribute of the class; with the flag false it always answers one;
    and every object it answers has exactly the attributes [__init__] sets,
    so construction never adds or drops an attribute. *)
Theorem construct_answers_iff_keys_declared
        (fc : FactoryClass) (c : ObjectClass) (data : dict) :
  _get_object_class fc = Some c ->
  public (cls_init c) ->
  ((exists obj, Factory.construct fc data true = Ok obj) <->
   (forall k, In k (Dict.keys data) -> In k (Dict.keys (cls_init c)))) /\
  (exists obj, Factory.construct fc data false = Ok obj) /\
  (forall b obj, Factory.construct fc data b = Ok obj -> instance_of c obj).
Proof.
  intros Hc Hp.
  assert (Hall : forall b obj, Factory.construct fc data b = Ok obj ->
                               instance_of c obj /\
                               (b = true -> first_unknown c data = None)).
  { intros b obj Hrun.
    destruct (first_unknown c data) as [k0|] eqn:Ek.
    - destruct b.
      + rewrite (construct_unknown fc c data k0 Hc Hp Ek) in Hrun.
        discriminate.
      + destruct (construct_ok fc c data false Hc Hp) as [o [Ho [Hi _]]];
          [discriminate|].
        split; [congruence | discriminate].
    - destruct (construct_ok fc c data b Hc Hp) as [o [Ho [Hi _]]]; auto.
      split; [congruence | auto]. }
  split; [|split].
  - split.
    + intros [obj Hrun]. apply first_unknown_none.
      now apply (Hall true obj).
    + intros Hkeys.
      destruct (construct_ok fc c data true Hc Hp) as [o [Ho _]]; eauto.
      intros _. unfold first_unknown. apply find_none_forallb.
      apply forallb_forall. intros k Hk. rewrite negb_involutive.
      apply str_in_iff. auto.
  - destruct (construct_ok fc c data false Hc Hp) as [o [Ho _]];
      [discriminate | eauto].
  - intros b obj Hrun. now apply (Hall b obj).
Qed.

Lemma construct_answers_iff_keys_declared_witness :
  exists obj,
    Factory.construct User.Factory
      [("username", VStr "bob"); ("roles", VDict [])] true = Ok obj.
Proof.
  apply (proj1 (construct_answers_iff_keys_declared
                  User.Factory User.User
                  [("username", VStr "bob"); ("roles", VDict [])]
                  eq_refl eq_refl)).
  simpl. intuition.
Defined.

(** ** Loads by primary key and what the controller answers *)

Section LoadFacts.

Context {B : Boto3}.

(** X6. A load by uuid makes exactly one [get_item] call, with the key
    [{'uuid': uuid}], through the factory's persister, and never changes a
    table.  When the table has no item under the key it raises
    RecordNotFound; when it has one, the answer is what [construct] makes of
    that item.  [Controller.get] is this load for an authorized caller. *)
Theorem load_by_uuid_reads_once
        (self : ControllerObj) (uuid : value) (st st1 : State)
        (p : PersisterHandle) :
  holds_one_of Controller.accepted (user self) = true ->
  Factory._persister (factory self) st = (Ok p, st1) ->
  let after := logged st1 p (GetItem [("uuid", uuid)]) in
  tables after = tables st /\
  Controller.get self uuid st = Factory.load_by_uuid (factory self) uuid st /\
  (get_item (tables st) (table p) [("uuid", uuid)] = None ->
   Factory.load_by_uuid (factory self) uuid st =
     (Raise (RecordNotFoundException "Record not found"), after)) /\
  (forall item,
     get_item (tables st) (table p) [("uuid", uuid)] = Some item ->
     Factory.load_by_uuid (factory self) uuid st =
       (Factory.construct (factory self) item true, after)).
Proof.
  intros Hauth Hp after.
  pose proof (_persister_state (factory self) st) as [Ht _].
  rewrite Hp in Ht. simpl in Ht.
  split; [exact Ht|]. split.
  - unfold Controller.get, Controller.require_role. now rewrite Hauth.
  - unfold Factory.load_by_uuid. rewrite load_from_database_spec, Hp, Ht.
    split.
    + now intros ->.
    + now intros item ->.
Qed.

(** X7. An object that [set] or [update] answers has passed validation:
    neither ever hands back an object that [validate()] rejects. *)
Theorem controller_answers_validated_objects
        (self : ControllerObj) (data : dict) (st st' : State) (obj : Obj) :
  Controller.set self data st = (Ok obj, st') \/
  Controller.update self data st = (Ok obj, st') ->
  obj_validate obj = Ok tt.
Proof.
  unfold Controller.set, Controller.update, Controller.require_role,
    bind, lift, ret, raise.
  destruct (holds_one_of Controller.accepted (user self));
    [|intros [H|H]; discriminate].
  intros [H|H].
  - destruct (Factory.construct (factory self) data true) as [o|e];
      [|discriminate].
    destruct (obj_validate o) as [[]|e] eqn:Ev; [|discriminate].
    injection H as <- _. exact Ev.
  - destruct (Dict.get data "uuid") as [uuid|]; [|discriminate].
    destruct (truthy uuid); [|discriminate].
    destruct (Factory.load_by_uuid (factory self) uuid st) as [[o|e] st1];
      [|discriminate].
    destruct (obj_validate (Object.set_from_data o data)) as [[]|e] eqn:Ev;
      [|discriminate].
    injection H as <- _. exact Ev.
Qed.

(** X8. When the [_persister] property raises, nothing was cached and the
    state is as it was, so the next access tries the hook again; the error
    is the missing hook's or the missing table name's. *)
Theorem _persister_failure_caches_nothing
        (fc : FactoryClass) (st st' : State) (e : exn) :
  Factory._persister fc st = (Raise e, st') ->
  st' = st /\ __persister st' = None /\
  (e = Exception "SYSTEM ERROR: persister not defined." \/
   e = Exception "SYSTEM ERROR: No table name specified.").
Proof.
  unfold Factory._persister, Factory.call_get_persister, Persister.init,
    raise.
  destruct (__persister st) as [p|] eqn:Ec; [discriminate|].
  destruct (get_persister fc) as [pc|].
  - destruct (_get_table_name pc) as [name|]; [discriminate|].
    intros H. injection H as <- <-. auto.
  - intros H. injection H as <- <-. auto.
Qed.

(** X9. [delete(obj)] reads [obj.uuid]: for an object without that
    attribute it raises AttributeError before any store call; otherwise it
    makes one [delete_item] call keyed by the uuid alone, without validating
    the object. *)
Theorem delete_is_keyed_by_uuid
        (self : PersisterHandle) (obj : Obj) (st : State) :
  (~ In "uuid" (Dict.keys (__dict__ obj)) ->
   Persister.delete self obj st = (Raise (AttributeError "uuid"), st)) /\
  (forall u, getattr obj "uuid" = Some u ->
     Persister.delete self obj st =
     (Ok tt,
      {| tables := delete_item (tables st) (table self) [("uuid", u)];
         log := (log st ++ [{| ev_persister := self;
                               ev_call := DeleteItem [("uuid", u)] |}])%list;
         persisters := persisters st;
         __persister := __persister st |})).
Proof.
  unfold Persister.delete, getattr. split.
  - intros Hno. apply get_none_iff in Hno. now rewrite Hno.
  - intros u ->. reflexivity.
Qed.

End LoadFacts.

Lemma load_by_uuid_reads_once_witness :
  Factory.load_by_uuid (B := Memory.boto3) Organization.Factory
    (VStr "spo-404") (Memory.start Organization.stored) =
  (Raise (RecordNotFoundException "Record not found"),
   Memory.state Organization.stored
     [{| ev_persister := {| p_id := 0; table := "SponsoringOrganizations" |};
         ev_call := GetItem [("uuid", VStr "spo-404")] |}]
     1 (Some {| p_id := 0; table := "SponsoringOrganizations" |})).
Proof.
  apply (proj1 (proj2 (proj2
           (load_by_uuid_reads_once (B := Memory.boto3)
              Organization.admin (VStr "spo-404")
              (Memory.start Organization.stored)
              (Memory.state Organization.stored [] 1
                 (Some {| p_id := 0; table := "SponsoringOrganizations" |}))
              {| p_id := 0; table := "SponsoringOrganizations" |}
              eq_refl eq_refl)))).
  reflexivity.
Defined.

Lemma controller_answers_validated_objects_witness :
  obj_validate
    {| klass := Organization.Organization;
       __dict__ := [("uuid", VStr "spo-1"); ("subdistrict_id", VStr "sd-9");
                    ("name", VStr "Troop 2")] |} = Ok tt.
Proof.
  apply (controller_answers_validated_objects (B := Memory.boto3)
           Organization.admin
           [("uuid", VStr "spo-1"); ("subdistrict_id", VStr "sd-9");
            ("name", VStr "Troop 2")]
           (Memory.start Organization.stored)
           (Memory.start Organization.stored)).
  left. reflexivity.
Defined.

Lemma _persister_failure_caches_nothing_witness :
  Memory.start Accounts.stored = Memory.start Accounts.stored /\
  __persister (Memory.start Accounts.stored) = None.
Proof.
  destruct (_persister_failure_caches_nothing (B := Memory.boto3)
              User.Factory (Memory.start Accounts.stored)
              (Memory.start Accounts.stored)
              (Exception "SYSTEM ERROR: persister not defined.") eq_refl)
    as [H1 [H2 _]].
  split; assumption.
Defined.

(** ** Persister.query: the index it selects *)

Lemma query_with_index_witness :
  Persister.query (B := Memory.boto3) {| p_id := 0; table := "Users" |}
    [("__index__", VStr "by_name"); ("username", VStr "bob");
     ("password", VStr "5e88")]
    (Memory.start Accounts.stored)
  = (Ok [Accounts.bob],
     [("username", VStr "bob"); ("password", VStr "5e88")],
     Memory.state Accounts.stored
       [{| ev_persister := {| p_id := 0; table := "Users" |};
           ev_call := Query (VStr "by_name")
                        (Some (And (KeyEq "username" (VStr "bob"))
                                   (KeyEq "password" (VStr "5e88")))) |}]
       0 None).
Proof.
  apply (query_with_index (B := Memory.boto3)
           {| p_id := 0; table := "Users" |}
           [("__index__", VStr "by_name"); ("username", VStr "bob");
            ("password", VStr "5e88")]
           (Memory.start Accounts.stored) (VStr "by_name") eq_refl eq_refl).
Defined.

Lemma query_no_index_witness :
  Persister.query (B := Memory.boto3) {| p_id := 0; table := "Users" |}
    [] (Memory.start Accounts.stored)
  = (Raise (UnboundLocalError "index_name"), [],
     Memory.start Accounts.stored).
Proof.
  apply (query_no_index (B := Memory.boto3)
           {| p_id := 0; table := "Users" |} []
           (Memory.start Accounts.stored) eq_refl).
Defined.

(** X11. A falsy ['__index__'] (None, '', 0) does not select the index:
    the first remaining key does, when it is not the empty string; and
    when no key remains, the falsy value itself is passed as the index
    name, with no condition. *)
Theorem query_falsy_index_falls_back {B : Boto3}
        (self : PersisterHandle) (search_data : dict) (st : State)
        (i : value) :
  Dict.get search_data "__index__" = Some i ->
  truthy i = false ->
  (forall k v rest,
     Dict.del search_data "__index__" = (k, v) :: rest -> k <> "" ->
     let e := conjunction None ((k, v) :: rest) in
     Persister.query self search_data st =
     (match table_query (tables st) (table self) (VStr k) e with
      | Some items => Ok items
      | None => Raise (Exception "Error searching")
      end, (k, v) :: rest, logged st self (Query (VStr k) e))) /\
  (Dict.del search_data "__index__" = [] ->
   Persister.query self search_data st =
   (match table_query (tables st) (table self) i None with
    | Some items => Ok items
    | None => Raise (Exception "Error searching")
    end, [], logged st self (Query i None))).
Proof.
  intros Hi Hfalsy. unfold Persister.query, Persister.query_index.
  rewrite Hi. split.
  - intros k v rest Hdel Hk. rewrite Hdel. simpl. rewrite Hfalsy.
    rewrite query_loop_bound.
    + simpl. fold (logged st self
                     (Query (VStr k) (conjunction (Some (KeyEq k v)) rest))).
      now destruct (table_query (tables st) (table self) (VStr k)
                      (conjunction (Some (KeyEq k v)) rest)).
    + simpl. apply negb_true_iff. now apply String.eqb_neq.
  - intros Hdel. rewrite Hdel. simpl.
    fold (logged st self (Query i None)).
    now destruct (table_query (tables st) (table self) i None).
Qed.

Lemma query_falsy_index_falls_back_witness :
  Persister.query (B := Memory.boto3) {| p_id := 0; table := "Users" |}
    [("__index__", VStr ""); ("username", VStr "bob")]
    (Memory.start Accounts.stored)
  = (Ok [Accounts.bob], [("username", VStr "bob")],
     Memory.state Accounts.stored
       [{| ev_persister := {| p_id := 0; table := "Users" |};
           ev_call := Query (VStr "username")
                        (Some (KeyEq "username" (VStr "bob"))) |}]
       0 None).
Proof.
  apply (proj1 (query_falsy_index_falls_back (B := Memory.boto3)
                  {| p_id := 0; table := "Users" |}
                  [("__index__", VStr ""); ("username", VStr "bob")]
                  (Memory.start Accounts.stored) (VStr "") eq_refl eq_refl)
           "username" (VStr "bob") [] eq_refl).
  discriminate.
Defined.

(** ** The two concrete models, as shipped *)

(** An instance of a plain class whose validator's first required field is
    not an attribute of the class never validates. *)
Lemma undeclared_required_field_fails
      (c : ObjectClass) (vc : ValidatorClass) (reqs : dict)
      (k : string) (rest : list string) (obj : Obj) :
  plain_class c ->
  get_validator c = Some vc ->
  get_field_requirements vc = Some reqs ->
  required_keys reqs = k :: rest ->
  ~ In k (Dict.keys (cls_init c)) ->
  instance_of c obj ->
  obj_validate obj =
  Raise (InvalidObjectException (Validator.missing_required k)).
Proof.
  intros [Hp Hwf] Hv Hr Hreq Hno [Hk Hkeys].
  assert (Hd : Object.to_dict obj = Ok (__dict__ obj)).
  { apply to_dict_public.
    - unfold public. now rewrite Hkeys.
    - unfold Dict.wf. now rewrite Hkeys. }
  unfold obj_validate. rewrite Hk, Hv.
  rewrite (validator_validate_spec vc reqs obj _ Hr Hd), Hreq. simpl.
  assert (Hm : missing (__dict__ obj) k = true).
  { unfold missing, present_truthy.
    assert (Hg : Dict.get (__dict__ obj) k = None)
      by (apply get_none_iff; now rewrite Hkeys).
    now rewrite Hg. }
  now rewrite Hm.
Qed.

Lemma set_of_undeclared_required_field {B : Boto3}
      (self : ControllerObj) (c : ObjectClass) (vc : ValidatorClass)
      (reqs : dict) (k : string) (rest : list string)
      (data : dict) (st : State) :
  holds_one_of Controller.accepted (user self) = true ->
  _get_object_class (factory self) = Some c ->
  plain_class c ->
  get_validator c = Some vc ->
  get_field_requirements vc = Some reqs ->
  required_keys reqs = k :: rest ->
  ~ In k (Dict.keys (cls_init c)) ->
  Controller.set self data st =
  (Raise match first_unknown c data with
         | Some k0 => Exception (Factory.unknown_field c k0)
         | None => InvalidObjectException (Validator.missing_required k)
         end, st).
Proof.
  intros Hauth Hc Hplain Hv Hr Hreq Hno.
  unfold Controller.set, Controller.require_role, bind, lift, ret.
  rewrite Hauth.
  destruct (first_unknown c data) as [k0|] eqn:Ek.
  - now rewrite (construct_unknown _ c data k0 Hc (proj1 Hplain) Ek).
  - destruct (construct_ok (factory self) c data true Hc (proj1 Hplain))
      as [obj [Hrun [Hinst _]]]; auto.
    rewrite Hrun.
    now rewrite (undeclared_required_field_fails c vc reqs k rest obj).
Qed.

Lemma plain_user : plain_class User.User.
Proof.
  split; [reflexivity|]. unfold Dict.wf. simpl.
  repeat (constructor; [simpl; intuition discriminate|]). constructor.
Qed.

Lemma plain_sponsoring_organizations :
  plain_class SponsoringOrganizations.SponsoringOrganizations.
Proof.
  split; [reflexivity|]. unfold Dict.wf. simpl.
  repeat (constructor; [simpl; intuition discriminate|]). constructor.
Qed.

Lemma no_uuid_attribute (d : dict) :
  str_in "uuid" (Dict.keys d) = false -> ~ In "uuid" (Dict.keys d).
Proof. apply str_in_false_iff. Qed.

(** X15. Neither shipped model can be set: User and
    SponsoringOrganizations do not declare the 'uuid' their validators
    require first, so for every [data] an authorized [set(data)] raises,
    either the unknown-field error for the first key of [data] that is not
    an attribute (which 'uuid' itself is), or InvalidObject for the missing
    'uuid'; an unauthorized one is denied. *)
Theorem shipped_models_cannot_be_set {B : Boto3}
        (self : ControllerObj) (c : ObjectClass) (data : dict) (st : State) :
  (factory self = User.Factory /\ c = User.User) \/
  (factory self = SponsoringOrganizations.Factory /\
   c = SponsoringOrganizations.SponsoringOrganizations) ->
  Controller.set self data st =
  (Raise (if holds_one_of Controller.accepted (user self) then
            match first_unknown c data with
            | Some k0 => Exception (Factory.unknown_field c k0)
            | None =>
                InvalidObjectException (Validator.missing_required "uuid")
            end
          else AccessDenied), st).
Proof.
  intros Hf.
  destruct (holds_one_of Controller.accepted (user self)) eqn:Hauth.
  - destruct Hf as [[Hf ->] | [Hf ->]].
    + eapply set_of_undeclared_required_field; eauto.
      * now rewrite Hf.
      * apply plain_user.
      * reflexivity.
      * reflexivity.
      * reflexivity.
      * now apply no_uuid_attribute.
    + eapply set_of_undeclared_required_field; eauto.
      * now rewrite Hf.
      * apply plain_sponsoring_organizations.
      * reflexivity.
      * reflexivity.
      * reflexivity.
      * now apply no_uuid_attribute.
  - unfold Controller.set, Controller.require_role. now rewrite Hauth.
Qed.

Lemma shipped_models_cannot_be_set_witness :
  Controller.set (B := Memory.boto3)
    {| user := [ROLE_GUARDIAN]; factory := User.Factory |}
    [("username", VStr "bob"); ("password", VStr "5e88")]
    (Memory.start Accounts.stored)
  = (Raise (InvalidObjectException (Validator.missing_required "uuid")),
     Memory.start Accounts.stored).
Proof.
  apply (shipped_models_cannot_be_set (B := Memory.boto3)
           {| user := [ROLE_GUARDIAN]; factory := User.Factory |}
           User.User
           [("username", VStr "bob"); ("password", VStr "5e88")]
           (Memory.start Accounts.stored)
           (or_introl (conj eq_refl eq_refl))).
Defined.

(** X16. Neither shipped factory reaches the store: both name their hook
    [_get_persister], the base class calls [get_persister], so with the
    cache empty, as [__init__] leaves it, every load and every search
    raises the base hook's error, makes no store call, and leaves the
    cache empty. *)
Theorem shipped_factories_have_no_persister {B : Boto3}
        (self : ControllerObj) (st : State) :
  factory self = User.Factory \/
  factory self = SponsoringOrganizations.Factory ->
  holds_one_of Controller.accepted (user self) = true ->
  __persister st = None ->
  let e := Exception "SYSTEM ERROR: persister not defined." in
  (forall uuid, Controller.get self uuid st = (Raise e, st)) /\
  (forall data uuid, Dict.get data "uuid" = Some uuid -> truthy uuid = true ->
                     Controller.update self data st = (Raise e, st)) /\
  (forall search_data,
     Controller.search self search_data st = (Raise e, search_data, st)) /\
  (forall search_data,
     Factory.load_from_database_query (factory self) search_data st =
     (Raise e, search_data, st)).
Proof.
  intros Hf Hauth Hnone e.
  assert (Hp : Factory._persister (factory self) st = (Raise e, st)).
  { unfold Factory._persister. rewrite Hnone.
    destruct Hf as [-> | ->]; reflexivity. }
  assert (Hload : forall uuid,
             Factory.load_by_uuid (factory self) uuid st = (Raise e, st)).
  { intros uuid. unfold Factory.load_by_uuid.
    now rewrite load_from_database_spec, Hp. }
  repeat split.
  - intros uuid. unfold Controller.get, Controller.require_role.
    now rewrite Hauth.
  - intros data uuid Hu Ht.
    unfold Controller.update, Controller.require_role, bind.
    now rewrite Hauth, Hu, Ht, Hload.
  - intros search_data. unfold Controller.search. rewrite Hauth.
    destruct Hf as [-> | ->]; reflexivity.
  - intros search_data. unfold Factory.load_from_database_query.
    now rewrite Hp.
Qed.

Lemma shipped_factories_have_no_persister_witness :
  Controller.get (B := Memory.boto3)
    {| user := [ROLE_COUNCIL_ADMIN]; factory := User.Factory |}
    (VStr "usr-1") (Memory.start Accounts.stored)
  = (Raise (Exception "SYSTEM ERROR: persister not defined."),
     Memory.start Accounts.stored).
Proof.
  apply (proj1 (shipped_factories_have_no_persister (B := Memory.boto3)
                  {| user := [ROLE_COUNCIL_ADMIN]; factory := User.Factory |}
                  (Memory.start Accounts.stored)
                  (or_introl eq_refl) eq_refl eq_refl)).
Defined.

(** X17. For an authorized caller over a factory with a persister hook,
    [search] with a truthy ['__index__'] constructs a new persister, makes
    one query through it, and answers the items of the response as they
    are: raw dicts, neither constructed into objects nor validated.  The
    caller's dict comes back without ['__index__']. *)
Theorem search_answers_raw_items {B : Boto3}
        (self : ControllerObj) (search_data : dict) (st : State)
        (pc : PersisterClass) (name : string) (i : value) :
  holds_one_of Controller.accepted (user self) = true ->
  get_persister (factory self) = Some pc ->
  _get_table_name pc = Some name ->
  Dict.get search_data "__index__" = Some i ->
  truthy i = true ->
  let p := {| p_id := persisters st; table := name |} in
  let rest := Dict.del search_data "__index__" in
  let e := conjunction None rest in
  Controller.search self search_data st =
  (match table_query (tables st) name i e with
   | Some items => Ok items
   | None => Raise (Exception "Error searching")
   end, rest,
   {| tables := tables st;
      log := (log st ++ [{| ev_persister := p;
                            ev_call := Query i e |}])%list;
      persisters := S (persisters st);
      __persister := __persister st |}).
Proof.
  intros Hauth Hpc Hname Hi Ht p rest e.
  unfold Controller.search, Factory.call_get_persister, Persister.init.
  rewrite Hauth, Hpc, Hname.
  unfold Persister.query, Persister.query_index.
  rewrite Hi, (query_loop_bound i _ None Ht). simpl.
  fold rest. fold e.
  now destruct (table_query (tables st) name i e).
Qed.

Lemma search_answers_raw_items_witness :
  Controller.search (B := Memory.boto3) Organization.admin
    [("__index__", VStr "by_name"); ("name", VStr "Troop 1")]
    (Memory.start Organization.stored)
  = (Ok [Organization.troop1], [("name", VStr "Troop 1")],
     Memory.state Organization.stored
       [{| ev_persister := {| p_id := 0; table := "SponsoringOrganizations" |};
           ev_call := Query (VStr "by_name")
                        (Some (KeyEq "name" (VStr "Troop 1"))) |}]
       1 None).
Proof.
  apply (search_answers_raw_items (B := Memory.boto3) Organization.admin
           [("__index__", VStr "by_name"); ("name", VStr "Troop 1")]
           (Memory.start Organization.stored)
           SponsoringOrganizations.Persister "SponsoringOrganizations"
           (VStr "by_name") eq_refl eq_refl eq_refl eq_refl eq_refl).
Defined.
